(** * FemtoUniverseTrackSelection: the track cut engine of PWGCF/FemtoUniverse

    A shallow embedding of
    [PWGCF/FemtoUniverse/Core/FemtoUniverseTrackSelection.h]
    and the properties its specification states about it.

    Numbers are modelled as the machine has them: C++ [float] is IEEE-754
    binary32 and [double] is binary64, both through the executable
    specification [SpecFloat] of the Standard Library (round to nearest,
    ties to even); [int] and [unsigned int] are [Z] with their wrap-around
    written out; a bit container of [8 * sizeof(CutContainerType)] bits is
    a [Z] kept below [2 ^ width]. *)

From Stdlib Require Import ZArith List String Ascii Bool Lia.
From Stdlib Require Import SpecFloat.
Import ListNotations.
Local Open Scope Z_scope.

(* ===================================================================== *)
(** * Part I: the embedding                                               *)
(* ===================================================================== *)

(** ** Floating point *)

Definition float := spec_float.   (* C++ float: binary32 *)
Definition double := spec_float.  (* C++ double: binary64 *)

Module F32.
Definition prec : Z := 24.
Definition emax : Z := 128.
Definition of_Z (z : Z) : float := binary_normalize prec emax z 0 false.
Definition add : float -> float -> float := SFadd prec emax.
Definition sub : float -> float -> float := SFsub prec emax.
Definition mul : float -> float -> float := SFmul prec emax.
Definition div : float -> float -> float := SFdiv prec emax.
Definition sqrt : float -> float := SFsqrt prec emax.
(** The decimal literal [n / 10^k], rounded once to binary32. *)
Definition decimal (n : Z) (k : nat) : float := div (of_Z n) (of_Z (10 ^ Z.of_nat k)).
(** Narrowing conversion [double -> float]. *)
Definition of_double (x : double) : float :=
    match x with
    | S754_finite s m e => binary_round prec emax s m e
    | _ => x
    end.
End F32.

Module F64.
Definition prec : Z := 53.
Definition emax : Z := 1024.
Definition of_Z (z : Z) : double := binary_normalize prec emax z 0 false.
Definition add : double -> double -> double := SFadd prec emax.
Definition mul : double -> double -> double := SFmul prec emax.
Definition sqrt : double -> double := SFsqrt prec emax.
(** Widening conversion [float -> double]: exact, the mantissa is only
    brought to the canonical form of binary64. *)
Definition of_float (x : float) : double :=
    match x with
    | S754_finite s m e => binary_round prec emax s m e
    | _ => x
    end.
(** [std::pow(x, 2.)]: the square, rounded once. *)
Definition pow2 (x : double) : double := mul x x.
End F64.

(** [std::abs] and the comparison operators do not depend on the format. *)
Definition fabs : spec_float -> spec_float := SFabs.
Definition flt : spec_float -> spec_float -> bool := SFltb.              (* x < y *)
Definition fle : spec_float -> spec_float -> bool := SFleb.              (* x <= y *)
Definition fgt (x y : spec_float) : bool := SFltb y x.                   (* x > y *)
Definition fge (x y : spec_float) : bool := SFleb y x.                   (* x >= y *)
Definition feq : spec_float -> spec_float -> bool := SFeqb.              (* x == y *)

(** ** Machine integers *)

(** Conversion to [int] (32 bits, two's complement). *)
Definition to_int (z : Z) : Z := (z + 2 ^ 31) mod 2 ^ 32 - 2 ^ 31.
(** Conversion to [unsigned int] (32 bits). *)
Definition to_unsigned (z : Z) : Z := z mod 2 ^ 32.

(** ** femto_universe_track_selection::TrackSel *)

Inductive TrackSel : Type :=
  | kSign            (* Sign of the track *)
  | kpTMin           (* Min. p_T (GeV/c) *)
  | kpTMax           (* Max. p_T (GeV/c) *)
  | kEtaMax          (* Max. |eta| *)
  | kTPCnClsMin      (* Min. number of TPC clusters *)
  | kTPCfClsMin      (* Min. fraction of crossed rows/findable TPC clusters *)
  | kTPCcRowsMin     (* Min. number of crossed TPC rows *)
  | kTPCsClsMax      (* Max. number of shared TPC clusters *)
  | kTPCfracsClsMax  (* Max. number of fraction of shared TPC clusters *)
  | kITSnClsMin      (* Min. number of ITS clusters *)
  | kITSnClsIbMin    (* Min. number of ITS clusters in the inner barrel *)
  | kDCAxyMax        (* Max. DCA_xy (cm) *)
  | kDCAzMax         (* Max. DCA_z (cm) *)
  | kDCAMin          (* Min. DCA_xyz (cm) *)
  | kPIDnSigmaMax.   (* Max. |n_sigma| for PID *)

(** The integral value of an enumerator, used to index the tables. *)
Definition TrackSel_to_nat (s : TrackSel) : nat :=
  match s with
  | kSign => 0 | kpTMin => 1 | kpTMax => 2 | kEtaMax => 3
  | kTPCnClsMin => 4 | kTPCfClsMin => 5 | kTPCcRowsMin => 6
  | kTPCsClsMax => 7 | kTPCfracsClsMax => 8 | kITSnClsMin => 9
  | kITSnClsIbMin => 10 | kDCAxyMax => 11 | kDCAzMax => 12
  | kDCAMin => 13 | kPIDnSigmaMax => 14
  end%nat.

(** An object of the unscoped enumeration holds an integral value; the
    values 0..14 are the enumerators, any other value names none. *)
Definition TrackSel_of_nat (n : nat) : option TrackSel :=
  match n with
  | 0 => Some kSign | 1 => Some kpTMin | 2 => Some kpTMax | 3 => Some kEtaMax
  | 4 => Some kTPCnClsMin | 5 => Some kTPCfClsMin | 6 => Some kTPCcRowsMin
  | 7 => Some kTPCsClsMax | 8 => Some kTPCfracsClsMax | 9 => Some kITSnClsMin
  | 10 => Some kITSnClsIbMin | 11 => Some kDCAxyMax | 12 => Some kDCAzMax
  | 13 => Some kDCAMin | 14 => Some kPIDnSigmaMax
  | _ => None
  end%nat.

(** ** femto_universe_selection::SelectionType

    The enumeration is declared in FemtoUniverseSelection.h; these are the
    five enumerators this file names. *)
Inductive SelectionType : Type :=
  | kUpperLimit
  | kAbsUpperLimit
  | kLowerLimit
  | kAbsLowerLimit
  | kEqual.

(** ** The static catalogue *)

Definition kNtrackSelection : nat := 15.

(** Name of the different selections *)
Definition kSelectionNames : list string :=
  [ "Sign"; "PtMin"; "PtMax"; "EtaMax"; "TPCnClsMin"; "TPCfClsMin";
    "TPCcRowsMin"; "TPCsClsMax"; "TPCfracsClsMax"; "ITSnClsMin";
    "ITSnClsIbMin"; "DCAxyMax"; "DCAzMax"; "DCAMin"; "PIDnSigmaMax" ]%string.

(** Map to match a variable with its type *)
Definition kSelectionTypes : list SelectionType :=
  [ kEqual; kLowerLimit; kUpperLimit; kAbsUpperLimit; kLowerLimit;
    kLowerLimit; kLowerLimit; kUpperLimit; kUpperLimit; kLowerLimit;
    kLowerLimit; kAbsUpperLimit; kAbsUpperLimit; kAbsUpperLimit;
    kAbsUpperLimit ].

(** Helper information for the different selections *)
Definition kSelectionHelper : list string :=
  [ "Sign of the track"; "Minimal pT (GeV/c)"; "Maximal pT (GeV/c)";
    "Maximal eta"; "Minimum number of TPC clusters";
    "Minimum fraction of crossed rows/findable clusters";
    "Minimum number of crossed TPC rows";
    "Maximal number of shared TPC cluster";
    "Maximal number of fraction of shared TPC cluster";
    "Minimum number of ITS clusters";
    "Minimum number of ITS clusters in the inner barrel";
    "Maximal DCA_xy (cm)"; "Maximal DCA_z (cm)"; "Minimal DCA (cm)";
    "Maximal PID (nSigma)" ]%string.

(** [kSelectionNames[iSel]], [kSelectionTypes[iSel]], [kSelectionHelper[iSel]]
    at an enumerator: always in range. *)
Definition selectionNameAt (index : nat) : string :=
  nth index kSelectionNames EmptyString.

Definition getSelectionName (iSel : TrackSel) (prefix suffix : string) : string :=
  let outString := prefix in
  let outString := (outString ++ selectionNameAt (TrackSel_to_nat iSel))%string in
  let outString := (outString ++ suffix)%string in
  outString.

(** The loop [for (int index = 0; index < kNtrackSelection; index++)];
    [todo] is the number of iterations left. *)
Fixpoint findSelectionIndex_loop (todo index : nat) (obs prefix : string) : Z :=
  match todo with
  | O => -1
  | S todo' =>
      let comp := (prefix ++ selectionNameAt index)%string in
      if String.eqb obs comp then Z.of_nat index
      else findSelectionIndex_loop todo' (S index) obs prefix
  end.

Definition findSelectionIndex (obs prefix : string) : Z :=
  findSelectionIndex_loop kNtrackSelection 0 obs prefix.

Definition getSelectionType (iSel : TrackSel) : SelectionType :=
  nth (TrackSel_to_nat iSel) kSelectionTypes kEqual.

Definition getSelectionHelper (iSel : TrackSel) (prefix : string) : string :=
  (prefix ++ nth (TrackSel_to_nat iSel) kSelectionHelper EmptyString)%string.

(** ** The generic selection framework (FemtoUniverseSelection.h,
       FemtoUniverseObjectSelection.h) *)

(** Modelled from the spec: the class FemtoUniverseSelection is not part of
    the sources at hand.  A SelectionCriterion is a (variable-kind,
    comparison-kind, threshold) triple.  The variable is held as the
    integral value of the enumeration object, so that a value outside the
    15 enumerators can be expressed. *)
Record Selection : Type := mkSelection {
  getSelectionValue : float;
  getSelectionVariable : nat;
  selectionType : SelectionType
}.

(** Modelled from the spec: the per-criterion test of FemtoUniverseSelection,
    "evaluates observable against threshold per comparison semantics". *)
Definition isSelected (sel : Selection) (observable : float) : bool :=
  match selectionType sel with
  | kEqual => feq observable (getSelectionValue sel)
  | kLowerLimit => fge observable (getSelectionValue sel)
  | kUpperLimit => fle observable (getSelectionValue sel)
  | kAbsLowerLimit => fge (fabs observable) (getSelectionValue sel)
  | kAbsUpperLimit => fle (fabs observable) (getSelectionValue sel)
  end.

(** The value [1 << index] stored into a container of [width] bits. *)
Definition setBit (width : Z) (container index : Z) : Z :=
  Z.lor container (Z.shiftl 1 index) mod 2 ^ width.

(** Modelled from the spec: testAndSetBit of the framework, "on pass, sets
    bit bitIndex in outputContainer; bit index increments once per
    evaluated (non-PID) criterion; no side effect on failure".  Returns
    the container and the counter, both passed by reference in the call
    [sel.checkSelectionSetBit(observable, output, counter)]. *)
Definition checkSelectionSetBit (width : Z) (sel : Selection)
    (observable : float) (cutContainer counter : Z) : Z * Z :=
  (if isSelected sel observable then setBit width cutContainer counter
   else cutContainer,
   counter + 1).

(** Modelled from the spec: testAndSetBitPID of the framework, "same
    Abs-upper-limit-style test against the configured max |n-sigma|,
    appended at the next free PID bit index".  The call
    [sel.checkSelectionSetBitPID(value, outputPID)] carries no index: the
    bits already appended move up by one and the new one enters at
    index 0. *)
Definition checkSelectionSetBitPID (width : Z) (sel : Selection)
    (observable : float) (cutContainer : Z) : Z :=
  let bit := if fle (fabs observable) (getSelectionValue sel) then 1 else 0 in
  Z.lor (Z.shiftl cutContainer 1) bit mod 2 ^ width.

(** Modelled from the spec: getNSelections of FemtoUniverseObjectSelection,
    the number of registered criteria, and the number of those of one
    variable ("count of criteria for that kind"). *)
Definition getNSelections (sels : list Selection) : Z :=
  Z.of_nat (List.length sels).

Definition getNSelectionsOf (sels : list Selection) (selVar : TrackSel) : Z :=
  Z.of_nat (List.length (filter
    (fun sel => Nat.eqb (getSelectionVariable sel) (TrackSel_to_nat selVar)) sels)).

(** Modelled from the spec: collapseThresholds of the framework, reached in
    the source as [getMinimalSelection(selVar, selType)]: "keeps the single
    tightest bound per the comparisonKind semantics".  With no criterion of
    the kind the neutral bound is returned; the count 0 keeps it unused. *)
Definition tightest (selType : SelectionType) (acc v : float) : float :=
  match selType with
  | kLowerLimit | kAbsLowerLimit => if flt acc v then v else acc  (* maximum *)
  | kUpperLimit | kAbsUpperLimit => if flt v acc then v else acc  (* minimum *)
  | kEqual => v                                                   (* the value itself *)
  end.

Definition neutralBound (selType : SelectionType) : float :=
  match selType with
  | kLowerLimit | kAbsLowerLimit => S754_infinity true
  | kUpperLimit | kAbsUpperLimit => S754_infinity false
  | kEqual => S754_zero false
  end.

Definition getMinimalSelection (sels : list Selection) (selVar : TrackSel)
    (selType : SelectionType) : float :=
  fold_left
    (fun acc sel =>
       if Nat.eqb (getSelectionVariable sel) (TrackSel_to_nat selVar)
       then tightest selType acc (getSelectionValue sel) else acc)
    sels (neutralBound selType).

(** Modelled from the spec: registerCriterion of the framework, "appends a
    SelectionCriterion with comparisonKind looked up from the static table
    for variableKind". *)
Definition registerCriterion (selVar : TrackSel) (threshold : float)
    (sels : list Selection) : list Selection :=
  sels ++ [mkSelection threshold (TrackSel_to_nat selVar) (getSelectionType selVar)].

(** ** The track record

    The track type is a template parameter; the engine reads it through
    these accessors only.  The integer-valued columns (cluster counts,
    sign) are held as the [float] they are converted to at each use here:
    a comparison with a [float] threshold or the assignment to
    [float observable]. *)
Definition PID := nat.  (* o2::track::PID, a species identifier *)

Record Track : Type := mkTrack {
  sign : float;
  pt : float;
  eta : float;
  tpcNClsFound : float;
  tpcCrossedRowsOverFindableCls : float;
  tpcNClsCrossedRows : float;
  tpcNClsShared : float;
  tpcFractionSharedCls : float;
  itsNCls : float;
  itsNClsInnerBarrel : float;
  dcaXY : float;
  dcaZ : float;
  tpcNSigma : PID -> float;   (* o2::aod::pidutils::tpcNSigma(pid, track) *)
  tofNSigma : PID -> float    (* o2::aod::pidutils::tofNSigma(pid, track) *)
}.

(** ** The engine *)

(** The histogram registry, seen as the names of the histograms added. *)
Definition HistogramRegistry := list string.

Record FemtoUniverseTrackSelection : Type := mkEngine {
  (* members of the base class FemtoUniverseObjectSelection *)
  mHistogramRegistry : option HistogramRegistry;
  mSelections : list Selection;
  (* members of FemtoUniverseTrackSelection *)
  nRejectNotPropagatedTracks : bool;
  nPtMinSel : Z;
  nPtMaxSel : Z;
  nEtaSel : Z;
  nTPCnMinSel : Z;
  nTPCfMinSel : Z;
  nTPCcMinSel : Z;
  nTPCsMaxSel : Z;
  nTPCsFracMaxSel : Z;
  nITScMinSel : Z;
  nITScIbMinSel : Z;
  nDCAxyMaxSel : Z;
  nDCAzMaxSel : Z;
  nDCAMinSel : Z;
  nPIDnSigmaSel : Z;
  pTMin : float;
  pTMax : float;
  etaMax : float;
  nClsMin : float;
  fClsMin : float;
  cTPCMin : float;
  sTPCMax : float;
  fracsTPCMax : float;
  nITSclsMin : float;
  nITSclsIbMin : float;
  dcaXYMax : float;
  dcaZMax : float;
  dcaMin : float;
  nSigmaPIDMax : float;
  nSigmaPIDOffsetTPC : float;
  nSigmaPIDOffsetTOF : float;
  kPIDspecies : list PID
}.

(** The constructor.  Its initialiser list leaves [nTPCsFracMaxSel],
    [nITSclsMin] and [nITSclsIbMin] uninitialised: their values are
    whatever the storage holds, given here as arguments. *)
Definition newFemtoUniverseTrackSelection (uFrac : Z) (uIts uItsIb : float)
    : FemtoUniverseTrackSelection :=
  let big := F32.of_Z 9999999 in
  let small := F32.of_Z (-9999999) in
  mkEngine None [] false
    0 0 0 0 0 0 0 uFrac 0 0 0 0 0 0
    big small small big big big small small uIts uItsIb small small big big
    (S754_zero false) (S754_zero false) [].

Definition setPIDSpecies (pids : list PID) (e : FemtoUniverseTrackSelection)
    : FemtoUniverseTrackSelection :=
  mkEngine (mHistogramRegistry e) (mSelections e) (nRejectNotPropagatedTracks e)
    (nPtMinSel e) (nPtMaxSel e) (nEtaSel e) (nTPCnMinSel e) (nTPCfMinSel e)
    (nTPCcMinSel e) (nTPCsMaxSel e) (nTPCsFracMaxSel e) (nITScMinSel e)
    (nITScIbMinSel e) (nDCAxyMaxSel e) (nDCAzMaxSel e) (nDCAMinSel e)
    (nPIDnSigmaSel e)
    (pTMin e) (pTMax e) (etaMax e) (nClsMin e) (fClsMin e) (cTPCMin e)
    (sTPCMax e) (fracsTPCMax e) (nITSclsMin e) (nITSclsIbMin e) (dcaXYMax e)
    (dcaZMax e) (dcaMin e) (nSigmaPIDMax e)
    (nSigmaPIDOffsetTPC e) (nSigmaPIDOffsetTOF e)
    (fold_left (fun acc pid => acc ++ [pid]) pids (kPIDspecies e)).

Definition setRejectNotPropagatedTracks (reject : bool)
    (e : FemtoUniverseTrackSelection) : FemtoUniverseTrackSelection :=
  mkEngine (mHistogramRegistry e) (mSelections e) reject
    (nPtMinSel e) (nPtMaxSel e) (nEtaSel e) (nTPCnMinSel e) (nTPCfMinSel e)
    (nTPCcMinSel e) (nTPCsMaxSel e) (nTPCsFracMaxSel e) (nITScMinSel e)
    (nITScIbMinSel e) (nDCAxyMaxSel e) (nDCAzMaxSel e) (nDCAMinSel e)
    (nPIDnSigmaSel e)
    (pTMin e) (pTMax e) (etaMax e) (nClsMin e) (fClsMin e) (cTPCMin e)
    (sTPCMax e) (fracsTPCMax e) (nITSclsMin e) (nITSclsIbMin e) (dcaXYMax e)
    (dcaZMax e) (dcaMin e) (nSigmaPIDMax e)
    (nSigmaPIDOffsetTPC e) (nSigmaPIDOffsetTOF e) (kPIDspecies e).

Definition setnSigmaPIDOffset (offsetTPC offsetTOF : float)
    (e : FemtoUniverseTrackSelection) : FemtoUniverseTrackSelection :=
  mkEngine (mHistogramRegistry e) (mSelections e) (nRejectNotPropagatedTracks e)
    (nPtMinSel e) (nPtMaxSel e) (nEtaSel e) (nTPCnMinSel e) (nTPCfMinSel e)
    (nTPCcMinSel e) (nTPCsMaxSel e) (nTPCsFracMaxSel e) (nITScMinSel e)
    (nITScIbMinSel e) (nDCAxyMaxSel e) (nDCAzMaxSel e) (nDCAMinSel e)
    (nPIDnSigmaSel e)
    (pTMin e) (pTMax e) (etaMax e) (nClsMin e) (fClsMin e) (cTPCMin e)
    (sTPCMax e) (fracsTPCMax e) (nITSclsMin e) (nITSclsIbMin e) (dcaXYMax e)
    (dcaZMax e) (dcaMin e) (nSigmaPIDMax e)
    offsetTPC offsetTOF (kPIDspecies e).

(** Stores the criteria in the base class ([mSelections] is filled by the
    framework's registration before [init] runs). *)
Definition withSelections (sels : list Selection)
    (e : FemtoUniverseTrackSelection) : FemtoUniverseTrackSelection :=
  mkEngine (mHistogramRegistry e) sels (nRejectNotPropagatedTracks e)
    (nPtMinSel e) (nPtMaxSel e) (nEtaSel e) (nTPCnMinSel e) (nTPCfMinSel e)
    (nTPCcMinSel e) (nTPCsMaxSel e) (nTPCsFracMaxSel e) (nITScMinSel e)
    (nITScIbMinSel e) (nDCAxyMaxSel e) (nDCAzMaxSel e) (nDCAMinSel e)
    (nPIDnSigmaSel e)
    (pTMin e) (pTMax e) (etaMax e) (nClsMin e) (fClsMin e) (cTPCMin e)
    (sTPCMax e) (fracsTPCMax e) (nITSclsMin e) (nITSclsIbMin e) (dcaXYMax e)
    (dcaZMax e) (dcaMin e) (nSigmaPIDMax e)
    (nSigmaPIDOffsetTPC e) (nSigmaPIDOffsetTOF e) (kPIDspecies e).

(** ** init *)

(** [LOG(fatal)] ends the process: [init] then yields no engine. *)
Inductive Outcome (A : Type) : Type :=
  | Done (a : A)
  | Fatal (message : string).
Arguments Done {A} a.
Arguments Fatal {A} message.

(** The QA histograms [init] adds below the folder, in the order of the
    calls (titles and binning are not kept). *)
Definition qaHistograms : list string :=
  [ "/hPt"; "/hEta"; "/hPhi"; "/hTPCfindable"; "/hTPCfound";
    "/hTPCcrossedOverFindalbe"; "/hTPCcrossedRows"; "/hTPCfindableVsCrossed";
    "/hTPCshared"; "/hTPCfractionSharedCls"; "/hITSclusters";
    "/hITSclustersIB"; "/hDCAxy"; "/hDCAz"; "/hDCA"; "/hTPCdEdX";
    "/nSigmaTPC_el"; "/nSigmaTPC_pi"; "/nSigmaTPC_K"; "/nSigmaTPC_p";
    "/nSigmaTPC_d"; "/nSigmaTOF_el"; "/nSigmaTOF_pi"; "/nSigmaTOF_K";
    "/nSigmaTOF_p"; "/nSigmaTOF_d"; "/nSigmaComb_el"; "/nSigmaComb_pi";
    "/nSigmaComb_K"; "/nSigmaComb_p"; "/nSigmaComb_d" ]%string.

(** The block [if (registry) { ... }]: stores the registry, checks the
    number of selections against the bitmap size, adds the histograms.
    [particleTypeName] and [trackTypeName] stand for
    [ParticleTypeName[part]] and [TrackTypeName[tracktype]]. *)
Definition initRegistry (sizeofCutContainerType : Z)
    (particleTypeName trackTypeName : string)
    (registry : option HistogramRegistry) (e : FemtoUniverseTrackSelection)
    : Outcome (option HistogramRegistry) :=
  match registry with
  | Some r =>
      let folderName := (particleTypeName ++ "/" ++ trackTypeName)%string in
      (* check whether the number of selection exceeds the bitmap size *)
      let nSelections :=
        to_unsigned (getNSelections (mSelections e)
                     - getNSelectionsOf (mSelections e) kPIDnSigmaMax) in
      if 8 * sizeofCutContainerType <? nSelections
      then Fatal "FemtoUniverseTrackCuts: Number of selections too large for your container - quitting!"
      else Done (Some (r ++ map (fun h => (folderName ++ h)%string) qaHistograms))
  | None => Done (mHistogramRegistry e)
  end.

Definition init (sizeofCutContainerType : Z)
    (particleTypeName trackTypeName : string)
    (registry : option HistogramRegistry) (e : FemtoUniverseTrackSelection)
    : Outcome FemtoUniverseTrackSelection :=
  match initRegistry sizeofCutContainerType particleTypeName trackTypeName
          registry e with
  | Fatal message => Fatal message
  | Done reg =>
      let sels := mSelections e in
      let n := fun selVar => to_int (getNSelectionsOf sels selVar) in
      let m := getMinimalSelection sels in
      (* set cuts *)
      Done (mkEngine reg sels (nRejectNotPropagatedTracks e)
        (n kpTMin) (n kpTMax) (n kEtaMax) (n kTPCnClsMin) (n kTPCfClsMin)
        (n kTPCcRowsMin) (n kTPCsClsMax) (n kTPCfracsClsMax) (n kITSnClsMin)
        (n kITSnClsIbMin) (n kDCAxyMax) (n kDCAzMax) (n kDCAMin)
        (n kPIDnSigmaMax)
        (m kpTMin kLowerLimit) (m kpTMax kUpperLimit)
        (m kEtaMax kAbsUpperLimit) (m kTPCnClsMin kLowerLimit)
        (m kTPCfClsMin kLowerLimit) (m kTPCcRowsMin kLowerLimit)
        (m kTPCsClsMax kUpperLimit) (m kTPCfracsClsMax kUpperLimit)
        (m kITSnClsMin kLowerLimit) (m kITSnClsIbMin kLowerLimit)
        (m kDCAxyMax kAbsUpperLimit) (m kDCAzMax kAbsUpperLimit)
        (m kDCAMin kAbsLowerLimit) (m kPIDnSigmaMax kAbsUpperLimit)
        (nSigmaPIDOffsetTPC e) (nSigmaPIDOffsetTOF e) (kPIDspecies e))
  end.

(** ** Per-track evaluation

    The two evaluation methods are not [const] and receive the track by
    reference.  They are written in a state monad over the two objects
    they can reach, the engine ([this]) and the track, so that what they
    leave behind can be stated. *)

Record World : Type := mkWorld {
  self : FemtoUniverseTrackSelection;
  trk : Track
}.

Definition M (A : Type) : Type := World -> A * World.

Definition ret {A : Type} (a : A) : M A := fun w => (a, w).

Definition bind {A B : Type} (c : M A) (k : A -> M B) : M B :=
  fun w => k (fst (c w)) (snd (c w)).

(** Reading a member of the engine, reading a column of the track. *)
Definition this {A : Type} (member : FemtoUniverseTrackSelection -> A) : M A :=
  fun w => (member (self w), w).

Definition track {A : Type} (column : Track -> A) : M A :=
  fun w => (column (trk w), w).

(** Writing a member of the engine (what the setters do). *)
Definition assign (update : FemtoUniverseTrackSelection -> FemtoUniverseTrackSelection)
    : M unit :=
  fun w => (tt, mkWorld (update (self w)) (trk w)).

Declare Scope monad_scope.
Delimit Scope monad_scope with monad.
Notation "x <- c ;; k" := (bind c (fun x => k))
  (at level 61, c at next level, right associativity) : monad_scope.
Local Open Scope monad_scope.

(** A range-based [for] over [l] whose body updates the locals [s]. *)
Fixpoint forEach {A S : Type} (body : A -> S -> M S) (l : list A) (s : S) : M S :=
  match l with
  | [] => ret s
  | x :: l' => s' <- body x s ;; forEach body l' s'
  end.

Definition run {A : Type} (c : M A) (e : FemtoUniverseTrackSelection) (t : Track) : A :=
  fst (c (mkWorld e t)).

Definition getNsigmaTPC (pid : PID) : M float := track (fun t => tpcNSigma t pid).
Definition getNsigmaTOF (pid : PID) : M float := track (fun t => tofNSigma t pid).

(** The loop that fills [pidTPC] and [pidTOF], one entry per species. *)
Definition collectPID : M (list float * list float) :=
  species <- this kPIDspecies ;;
  forEach
    (fun it (acc : list float * list float) =>
       valTPC <- getNsigmaTPC it ;;
       valTOF <- getNsigmaTOF it ;;
       ret (fst acc ++ [valTPC], snd acc ++ [valTOF]))
    species ([], []).

(** [v.at(i)]; the index is below the size wherever it is used. *)
Definition at_ (v : list float) (i : nat) : float := nth i v S754_nan.

Definition isSelectedMinimal : M bool :=
  pT <- track pt ;;
  eta_ <- track eta ;;
  tpcNClsF <- track tpcNClsFound ;;
  tpcRClsC <- track tpcCrossedRowsOverFindableCls ;;
  tpcNClsC <- track tpcNClsCrossedRows ;;
  tpcNClsS <- track tpcNClsShared ;;
  tpcNClsFracS <- track tpcFractionSharedCls ;;
  itsNCls_ <- track itsNCls ;;
  itsNClsIB <- track itsNClsInnerBarrel ;;
  dcaXY_ <- track dcaXY ;;
  dcaZ_ <- track dcaZ ;;
  dca <- track dcaXY ;;  (* only dcaXY should be checked; NOT std::sqrt(pow(dcaXY, 2.) + pow(dcaZ, 2.)) *)
  pids <- collectPID ;;
  let pidTPC := fst pids in
  c <- this (fun e => (0 <? nPtMinSel e) && flt pT (pTMin e)) ;;
  if c then ret false else
  c <- this (fun e => (0 <? nPtMaxSel e) && fgt pT (pTMax e)) ;;
  if c then ret false else
  c <- this (fun e => (0 <? nEtaSel e) && fgt (fabs eta_) (etaMax e)) ;;
  if c then ret false else
  c <- this (fun e => (0 <? nTPCnMinSel e) && flt tpcNClsF (nClsMin e)) ;;
  if c then ret false else
  c <- this (fun e => (0 <? nTPCfMinSel e) && flt tpcRClsC (fClsMin e)) ;;
  if c then ret false else
  c <- this (fun e => (0 <? nTPCcMinSel e) && flt tpcNClsC (cTPCMin e)) ;;
  if c then ret false else
  c <- this (fun e => (0 <? nTPCsMaxSel e) && fgt tpcNClsS (sTPCMax e)) ;;
  if c then ret false else
  c <- this (fun e => (0 <? nTPCsFracMaxSel e) && fgt tpcNClsFracS (fracsTPCMax e)) ;;
  if c then ret false else
  c <- this (fun e => (0 <? nITScMinSel e) && flt itsNCls_ (nITSclsMin e)) ;;
  if c then ret false else
  c <- this (fun e => (0 <? nITScIbMinSel e) && flt itsNClsIB (nITSclsIbMin e)) ;;
  if c then ret false else
  c <- this (fun e => (0 <? nDCAxyMaxSel e) && fgt (fabs dcaXY_) (dcaXYMax e)) ;;
  if c then ret false else
  c <- this (fun e => (0 <? nDCAzMaxSel e) && fgt (fabs dcaZ_) (dcaZMax e)) ;;
  if c then ret false else
  c <- this (fun e => (0 <? nDCAMinSel e) && flt (fabs dca) (dcaMin e)) ;;
  if c then ret false else
  c <- this (fun e => nRejectNotPropagatedTracks e
                      && fgt (F64.of_float (fabs dca)) (F64.of_Z 1000)) ;;
  if c then ret false else
  c <- this (fun e => 0 <? nPIDnSigmaSel e) ;;
  if c then
    offsetTPC <- this nSigmaPIDOffsetTPC ;;
    sigmaMax <- this nSigmaPIDMax ;;
    let isFulfilled :=
      fold_left
        (fun isFulfilled i =>
           let pidTPCVal := at_ pidTPC i in
           if flt (fabs (F32.sub pidTPCVal offsetTPC)) sigmaMax
           then true else isFulfilled)
        (seq 0 (List.length pidTPC)) false in
    if negb isFulfilled then ret isFulfilled else ret true
  else ret true.

(** The locals [getCutContainer] updates while it walks the criteria. *)
Record Locals : Type := mkLocals {
  observable : float;
  output : Z;
  counter : Z;
  outputPID : Z
}.

(** The inner loop of the PID branch: two bits per species. *)
Definition pidBits (width : Z) (sel : Selection) (pidTPC pidTOF : list float)
    (offsetTPC offsetTOF : float) (nSpecies : nat) (outputPID0 : Z) : Z :=
  fold_left
    (fun outPID i =>
       let pidTPCVal := F32.sub (at_ pidTPC i) offsetTPC in
       let pidTOFVal := F32.sub (at_ pidTOF i) offsetTOF in
       let pidComb :=
         F32.sqrt (F32.add (F32.mul pidTPCVal pidTPCVal)
                           (F32.mul pidTOFVal pidTOFVal)) in
       let outPID := checkSelectionSetBitPID width sel pidTPCVal outPID in
       checkSelectionSetBitPID width sel pidComb outPID)
    (seq 0 nSpecies) outputPID0.

Definition getCutContainer (sizeofCutContainerType : Z) : M (Z * Z) :=
  let width := 8 * sizeofCutContainerType in
  sign_ <- track sign ;;
  pT <- track pt ;;
  eta_ <- track eta ;;
  tpcNClsF <- track tpcNClsFound ;;
  tpcRClsC <- track tpcCrossedRowsOverFindableCls ;;
  tpcNClsC <- track tpcNClsCrossedRows ;;
  tpcNClsS <- track tpcNClsShared ;;
  tpcNClsFracS <- track tpcFractionSharedCls ;;
  itsNCls_ <- track itsNCls ;;
  itsNClsIB <- track itsNClsInnerBarrel ;;
  dcaXY_ <- track dcaXY ;;
  dcaZ_ <- track dcaZ ;;
  let dca := F64.sqrt (F64.add (F64.pow2 (F64.of_float dcaXY_))
                               (F64.pow2 (F64.of_float dcaZ_))) in
  pids <- collectPID ;;
  let pidTPC := fst pids in
  let pidTOF := snd pids in
  sels <- this mSelections ;;
  loc <- forEach
    (fun sel loc =>
       let selVariable := getSelectionVariable sel in
       if Nat.eqb selVariable (TrackSel_to_nat kPIDnSigmaMax) then
         (* PID needs to be handled a bit differently since we may need
            more than one species *)
         species <- this kPIDspecies ;;
         offsetTPC <- this nSigmaPIDOffsetTPC ;;
         offsetTOF <- this nSigmaPIDOffsetTOF ;;
         ret (mkLocals (observable loc) (output loc) (counter loc)
                (pidBits width sel pidTPC pidTOF offsetTPC offsetTOF
                   (List.length species) (outputPID loc)))
       else
         (* for the rest it's all the same *)
         let observable_ :=
           match TrackSel_of_nat selVariable with
           | Some kSign => sign_
           | Some kpTMin | Some kpTMax => pT
           | Some kEtaMax => eta_
           | Some kTPCnClsMin => tpcNClsF
           | Some kTPCfClsMin => tpcRClsC
           | Some kTPCcRowsMin => tpcNClsC
           | Some kTPCsClsMax => tpcNClsS
           | Some kTPCfracsClsMax => tpcNClsFracS
           | Some kITSnClsMin => itsNCls_
           | Some kITSnClsIbMin => itsNClsIB
           | Some kDCAxyMax => dcaXY_
           | Some kDCAzMax => dcaZ_
           | Some kDCAMin => F32.of_double dca
           | Some kPIDnSigmaMax => observable loc
           | None => observable loc   (* no case matches: nothing is assigned *)
           end in
         let r := checkSelectionSetBit width sel observable_
                    (output loc) (counter loc) in
         ret (mkLocals observable_ (fst r) (snd r) (outputPID loc)))
    sels (mkLocals (S754_zero false) 0 0 0) ;;
  ret (output loc, outputPID loc).

(* ===================================================================== *)
(** * Part II: vocabulary of the specification                            *)
(* ===================================================================== *)

Definition allKinds : list TrackSel :=
  [ kSign; kpTMin; kpTMax; kEtaMax; kTPCnClsMin; kTPCfClsMin; kTPCcRowsMin;
    kTPCsClsMax; kTPCfracsClsMax; kITSnClsMin; kITSnClsIbMin; kDCAxyMax;
    kDCAzMax; kDCAMin; kPIDnSigmaMax ].

(** The comparison kind the specification lists for each variable. *)
Definition listedSelectionType (iSel : TrackSel) : SelectionType :=
  match iSel with
  | kSign => kEqual
  | kpTMin => kLowerLimit
  | kpTMax => kUpperLimit
  | kEtaMax => kAbsUpperLimit
  | kTPCnClsMin | kTPCfClsMin | kTPCcRowsMin => kLowerLimit
  | kTPCsClsMax | kTPCfracsClsMax => kUpperLimit
  | kITSnClsMin | kITSnClsIbMin => kLowerLimit
  | kDCAxyMax | kDCAzMax => kAbsUpperLimit
  | kDCAMin => kAbsLowerLimit
  | kPIDnSigmaMax => kAbsUpperLimit
  end.

(** The count member [isSelectedMinimal] consults for a kind.  The sign has
    no count member and no check there. *)
Definition minimalCount (e : FemtoUniverseTrackSelection) (k : TrackSel) : Z :=
  match k with
  | kSign => 0
  | kpTMin => nPtMinSel e
  | kpTMax => nPtMaxSel e
  | kEtaMax => nEtaSel e
  | kTPCnClsMin => nTPCnMinSel e
  | kTPCfClsMin => nTPCfMinSel e
  | kTPCcRowsMin => nTPCcMinSel e
  | kTPCsClsMax => nTPCsMaxSel e
  | kTPCfracsClsMax => nTPCsFracMaxSel e
  | kITSnClsMin => nITScMinSel e
  | kITSnClsIbMin => nITScIbMinSel e
  | kDCAxyMax => nDCAxyMaxSel e
  | kDCAzMax => nDCAzMaxSel e
  | kDCAMin => nDCAMinSel e
  | kPIDnSigmaMax => nPIDnSigmaSel e
  end.

(** The collapsed threshold of a kind. *)
Definition threshold (e : FemtoUniverseTrackSelection) (k : TrackSel) : float :=
  match k with
  | kSign => S754_nan
  | kpTMin => pTMin e
  | kpTMax => pTMax e
  | kEtaMax => etaMax e
  | kTPCnClsMin => nClsMin e
  | kTPCfClsMin => fClsMin e
  | kTPCcRowsMin => cTPCMin e
  | kTPCsClsMax => sTPCMax e
  | kTPCfracsClsMax => fracsTPCMax e
  | kITSnClsMin => nITSclsMin e
  | kITSnClsIbMin => nITSclsIbMin e
  | kDCAxyMax => dcaXYMax e
  | kDCAzMax => dcaZMax e
  | kDCAMin => dcaMin e
  | kPIDnSigmaMax => nSigmaPIDMax e
  end.

(** The columns of a track. *)
Inductive Observable : Type :=
  | OSign | OPt | OEta | OTpcNClsFound | OTpcCrossedRowsOverFindableCls
  | OTpcNClsCrossedRows | OTpcNClsShared | OTpcFractionSharedCls
  | OItsNCls | OItsNClsInnerBarrel | ODcaXY | ODcaZ
  | OTpcNSigma | OTofNSigma.

(** Two tracks carry the same value in a column. *)
Definition agree (o : Observable) (t1 t2 : Track) : Prop :=
  match o with
  | OSign => sign t1 = sign t2
  | OPt => pt t1 = pt t2
  | OEta => eta t1 = eta t2
  | OTpcNClsFound => tpcNClsFound t1 = tpcNClsFound t2
  | OTpcCrossedRowsOverFindableCls =>
      tpcCrossedRowsOverFindableCls t1 = tpcCrossedRowsOverFindableCls t2
  | OTpcNClsCrossedRows => tpcNClsCrossedRows t1 = tpcNClsCrossedRows t2
  | OTpcNClsShared => tpcNClsShared t1 = tpcNClsShared t2
  | OTpcFractionSharedCls => tpcFractionSharedCls t1 = tpcFractionSharedCls t2
  | OItsNCls => itsNCls t1 = itsNCls t2
  | OItsNClsInnerBarrel => itsNClsInnerBarrel t1 = itsNClsInnerBarrel t2
  | ODcaXY => dcaXY t1 = dcaXY t2
  | ODcaZ => dcaZ t1 = dcaZ t2
  | OTpcNSigma => forall pid, tpcNSigma t1 pid = tpcNSigma t2 pid
  | OTofNSigma => forall pid, tofNSigma t1 pid = tofNSigma t2 pid
  end.

(** Two tracks differ at most in one column. *)
Definition differOnlyIn (o : Observable) (t1 t2 : Track) : Prop :=
  forall o', o' <> o -> agree o' t1 t2.

(** The column the check of a kind reads in [isSelectedMinimal]; there the
    DCA of [kDCAMin] is [dcaXY]. *)
Definition minimalObservable (k : TrackSel) : Observable :=
  match k with
  | kSign => OSign
  | kpTMin | kpTMax => OPt
  | kEtaMax => OEta
  | kTPCnClsMin => OTpcNClsFound
  | kTPCfClsMin => OTpcCrossedRowsOverFindableCls
  | kTPCcRowsMin => OTpcNClsCrossedRows
  | kTPCsClsMax => OTpcNClsShared
  | kTPCfracsClsMax => OTpcFractionSharedCls
  | kITSnClsMin => OItsNCls
  | kITSnClsIbMin => OItsNClsInnerBarrel
  | kDCAxyMax | kDCAMin => ODcaXY
  | kDCAzMax => ODcaZ
  | kPIDnSigmaMax => OTpcNSigma
  end.

(** The value of a scalar column. *)
Definition columnValue (t : Track) (o : Observable) : float :=
  match o with
  | OSign => sign t
  | OPt => pt t
  | OEta => eta t
  | OTpcNClsFound => tpcNClsFound t
  | OTpcCrossedRowsOverFindableCls => tpcCrossedRowsOverFindableCls t
  | OTpcNClsCrossedRows => tpcNClsCrossedRows t
  | OTpcNClsShared => tpcNClsShared t
  | OTpcFractionSharedCls => tpcFractionSharedCls t
  | OItsNCls => itsNCls t
  | OItsNClsInnerBarrel => itsNClsInnerBarrel t
  | ODcaXY => dcaXY t
  | ODcaZ => dcaZ t
  | OTpcNSigma | OTofNSigma => S754_nan
  end.

(** The comparison that makes the check of a kind reject in
    [isSelectedMinimal], observable [x] against collapsed threshold [T]. *)
Definition violates (k : TrackSel) (x T : float) : bool :=
  match k with
  | kSign | kPIDnSigmaMax => false
  | kpTMin | kTPCnClsMin | kTPCfClsMin | kTPCcRowsMin
  | kITSnClsMin | kITSnClsIbMin => flt x T
  | kpTMax | kTPCsClsMax | kTPCfracsClsMax => fgt x T
  | kEtaMax | kDCAxyMax | kDCAzMax => fgt (fabs x) T
  | kDCAMin => flt (fabs x) T
  end.

(** Some configured species has its offset-corrected TPC n-sigma strictly
    below the collapsed maximum. *)
Definition pidFulfilled (e : FemtoUniverseTrackSelection) (t : Track) : bool :=
  existsb
    (fun pid => flt (fabs (F32.sub (tpcNSigma t pid) (nSigmaPIDOffsetTPC e)))
                    (nSigmaPIDMax e))
    (kPIDspecies e).

(** The check of kind [k] is active and rejects the track. *)
Definition rejects (e : FemtoUniverseTrackSelection) (t : Track) (k : TrackSel) : bool :=
  match k with
  | kPIDnSigmaMax => (0 <? nPIDnSigmaSel e) && negb (pidFulfilled e t)
  | _ => (0 <? minimalCount e k)
         && violates k (columnValue t (minimalObservable k)) (threshold e k)
  end.

(** The rejection of tracks not propagated to the vertex. *)
Definition notPropagated (e : FemtoUniverseTrackSelection) (t : Track) : bool :=
  nRejectNotPropagatedTracks e
  && fgt (F64.of_float (fabs (dcaXY t))) (F64.of_Z 1000).


(** The observable [getCutContainer] extracts for an enumerator of the
    non-PID kinds; for [kDCAMin] the Euclidean combination of [dcaXY] and
    [dcaZ], computed in [double] and stored into [float observable]. *)
Definition cutColumn (t : Track) (k : TrackSel) : float :=
  match k with
  | kSign => sign t
  | kpTMin | kpTMax => pt t
  | kEtaMax => eta t
  | kTPCnClsMin => tpcNClsFound t
  | kTPCfClsMin => tpcCrossedRowsOverFindableCls t
  | kTPCcRowsMin => tpcNClsCrossedRows t
  | kTPCsClsMax => tpcNClsShared t
  | kTPCfracsClsMax => tpcFractionSharedCls t
  | kITSnClsMin => itsNCls t
  | kITSnClsIbMin => itsNClsInnerBarrel t
  | kDCAxyMax => dcaXY t
  | kDCAzMax => dcaZ t
  | kDCAMin =>
      F32.of_double
        (F64.sqrt (F64.add (F64.pow2 (F64.of_float (dcaXY t)))
                           (F64.pow2 (F64.of_float (dcaZ t)))))
  | kPIDnSigmaMax => S754_nan
  end.

(** The value of [observable] after the switch on a variable: the column
    of the enumerator, or the value left by the previous criterion
    ([stale]) when no case assigns it. *)
Definition cutObservable (t : Track) (selVariable : nat) (stale : float) : float :=
  match TrackSel_of_nat selVariable with
  | Some kPIDnSigmaMax | None => stale
  | Some k => cutColumn t k
  end.

Definition isPIDSelection (sel : Selection) : bool :=
  Nat.eqb (getSelectionVariable sel) (TrackSel_to_nat kPIDnSigmaMax).

(** The criteria that take a bit of the ordinary container. *)
Definition nonPID (sels : list Selection) : list Selection :=
  filter (fun sel => negb (isPIDSelection sel)) sels.

(** The value of [observable] once the criteria [sels] have been walked. *)
Definition observableAfter (t : Track) (sels : list Selection) : float :=
  fold_left (fun obs sel => cutObservable t (getSelectionVariable sel) obs)
    (nonPID sels) (S754_zero false).

(** One iteration of the loop of [getCutContainer], as a function. *)
Definition cutStep (width : Z) (e : FemtoUniverseTrackSelection) (t : Track)
    (sel : Selection) (loc : Locals) : Locals :=
  if isPIDSelection sel then
    mkLocals (observable loc) (output loc) (counter loc)
      (pidBits width sel
         (map (tpcNSigma t) (kPIDspecies e)) (map (tofNSigma t) (kPIDspecies e))
         (nSigmaPIDOffsetTPC e) (nSigmaPIDOffsetTOF e)
         (List.length (kPIDspecies e)) (outputPID loc))
  else
    let observable_ := cutObservable t (getSelectionVariable sel) (observable loc) in
    let r := checkSelectionSetBit width sel observable_ (output loc) (counter loc) in
    mkLocals observable_ (fst r) (snd r) (outputPID loc).

Definition cutLoop (width : Z) (e : FemtoUniverseTrackSelection) (t : Track)
    (sels : list Selection) (loc : Locals) : Locals :=
  fold_left (fun loc sel => cutStep width e t sel loc) sels loc.

(** The number of criteria [init] compares with the bitmap size. *)
Definition nOrdinarySelections (e : FemtoUniverseTrackSelection) : Z :=
  getNSelections (mSelections e) - getNSelectionsOf (mSelections e) kPIDnSigmaMax.

(** ** Sample tracks and configurations *)

Definition zero : float := S754_zero false.

(** A track with every column at 0. *)
Definition track0 : Track :=
  mkTrack zero zero zero zero zero zero zero zero zero zero zero zero
    (fun _ => zero) (fun _ => zero).

Definition withPt (x : float) (t : Track) : Track :=
  mkTrack (sign t) x (eta t) (tpcNClsFound t) (tpcCrossedRowsOverFindableCls t)
    (tpcNClsCrossedRows t) (tpcNClsShared t) (tpcFractionSharedCls t)
    (itsNCls t) (itsNClsInnerBarrel t) (dcaXY t) (dcaZ t)
    (tpcNSigma t) (tofNSigma t).


Definition withDCA (xy z : float) (t : Track) : Track :=
  mkTrack (sign t) (pt t) (eta t) (tpcNClsFound t) (tpcCrossedRowsOverFindableCls t)
    (tpcNClsCrossedRows t) (tpcNClsShared t) (tpcFractionSharedCls t)
    (itsNCls t) (itsNClsInnerBarrel t) xy z
    (tpcNSigma t) (tofNSigma t).

Definition withTpcNSigma (f : PID -> float) (t : Track) : Track :=
  mkTrack (sign t) (pt t) (eta t) (tpcNClsFound t) (tpcCrossedRowsOverFindableCls t)
    (tpcNClsCrossedRows t) (tpcNClsShared t) (tpcFractionSharedCls t)
    (itsNCls t) (itsNClsInnerBarrel t) (dcaXY t) (dcaZ t)
    f (tofNSigma t).

(** A freshly constructed engine (the uninitialised members at 0). *)
Definition engine0 : FemtoUniverseTrackSelection :=
  newFemtoUniverseTrackSelection 0 zero zero.

(** Registration of the criteria and the species, then [init] for a
    container of one byte, with or without a registry. *)
Definition finalize (registry : option HistogramRegistry)
    (sels : list Selection) (pids : list PID) (e : FemtoUniverseTrackSelection)
    : Outcome FemtoUniverseTrackSelection :=
  init 1 "Tracks" "Track" registry (withSelections sels (setPIDSpecies pids e)).

Definition configured (sels : list Selection) (pids : list PID)
    (e : FemtoUniverseTrackSelection) : FemtoUniverseTrackSelection :=
  match finalize None sels pids e with
  | Done e' => e'
  | Fatal _ => e
  end.

Definition pion : PID := 2%nat.
Definition kaon : PID := 3%nat.

(** One criterion [PtMax <= 1]. *)
Definition enginePtMax : FemtoUniverseTrackSelection :=
  configured (registerCriterion kpTMax (F32.of_Z 1) []) [] engine0.

(** One criterion [PtMin >= 1]. *)
Definition enginePtMin : FemtoUniverseTrackSelection :=
  configured (registerCriterion kpTMin (F32.of_Z 1) []) [] engine0.

(** One criterion [|eta| <= 0.8]. *)
Definition engineEtaMax : FemtoUniverseTrackSelection :=
  configured (registerCriterion kEtaMax (F32.decimal 8 1) []) [] engine0.

(** One PID criterion [|n_sigma| max 3.0] for pions and kaons, offsets 0. *)
Definition enginePID : FemtoUniverseTrackSelection :=
  configured (registerCriterion kPIDnSigmaMax (F32.of_Z 3) []) [pion; kaon] engine0.

(** No criterion, tracks not propagated to the vertex are rejected. *)
Definition engineReject : FemtoUniverseTrackSelection :=
  setRejectNotPropagatedTracks true (configured [] [] engine0).

(** Species A at 2.9 sigma, species B at 10 sigma. *)
Definition trackAB : Track :=
  withTpcNSigma
    (fun pid => if Nat.eqb pid pion then F32.decimal 29 1 else F32.of_Z 10) track0.


(** Nine criteria of non-PID kinds, and the first eight of them. *)
Definition nineSelections : list Selection :=
  fold_left (fun sels k => registerCriterion k (F32.of_Z 1) sels)
    [ kSign; kpTMin; kpTMax; kEtaMax; kTPCnClsMin; kTPCfClsMin; kTPCcRowsMin;
      kTPCsClsMax; kTPCfracsClsMax ] [].

Definition eightSelections : list Selection := firstn 8 nineSelections.

(** A criterion whose variable is the value 15, outside the enumerators. *)
Definition selUnknown : Selection := mkSelection (F32.of_Z 1) 15 kAbsUpperLimit.

Definition engineUnknown : FemtoUniverseTrackSelection :=
  configured [selUnknown] [] engine0.

(** A minimum-DCA criterion at 0.15 cm. *)
Definition selDCAMin : Selection :=
  mkSelection (F32.decimal 15 2) (TrackSel_to_nat kDCAMin) kAbsLowerLimit.

Definition engineDCAMin : FemtoUniverseTrackSelection :=
  configured [selDCAMin] [] engine0.

(** The track with [dcaXY = 0.1] and [dcaZ = 0.2]. *)
Definition trackDCA : Track :=
  withDCA (F32.decimal 1 1) (F32.decimal 2 1) track0.

(** ** fillQA

    [fillQA] reads more columns of the track than the selection does; they
    are gathered here beside the track of the selection. *)
Record TrackQA : Type := mkTrackQA {
  selTrack : Track;
  phi : float;
  tpcNClsFindable : float;
  p : float;
  tpcSignal : float;
  tpcNSigmaEl : float;
  tpcNSigmaPi : float;
  tpcNSigmaKa : float;
  tpcNSigmaPr : float;
  tpcNSigmaDe : float;
  tofNSigmaEl : float;
  tofNSigmaPi : float;
  tofNSigmaKa : float;
  tofNSigmaPr : float;
  tofNSigmaDe : float
}.

(** One call [mHistogramRegistry->fill(HIST(name), values...)]. *)
Definition Fill : Type := string * list spec_float.

(** [std::sqrt(a * a + b * b)] on [float]s. *)
Definition nSigmaComb (a b : float) : float :=
  F32.sqrt (F32.add (F32.mul a a) (F32.mul b b)).

(** [HIST(ParticleTypeName[part]) + HIST("/") + HIST(TrackTypeName[tracktype])
    + HIST(name)]. *)
Definition histName (particleTypeName trackTypeName name : string) : string :=
  (((particleTypeName ++ "/") ++ trackTypeName) ++ name)%string.

(** The calls [fillQA] makes, in order; none without a registry. *)
Definition fillQA (particleTypeName trackTypeName : string)
    (e : FemtoUniverseTrackSelection) (q : TrackQA) : list Fill :=
  match mHistogramRegistry e with
  | None => []
  | Some _ =>
      let t := selTrack q in
      let pn := particleTypeName in
      let tn := trackTypeName in
      [ (histName pn tn "/hPt", [pt t]);
        (histName pn tn "/hEta", [eta t]);
        (histName pn tn "/hPhi", [phi q]);
        (histName pn tn "/hTPCfindable", [tpcNClsFindable q]);
        (histName pn tn "/hTPCfound", [tpcNClsFound t]);
        (histName pn tn "/hTPCcrossedOverFindalbe", [tpcCrossedRowsOverFindableCls t]);
        (histName pn tn "/hTPCcrossedRows", [tpcNClsCrossedRows t]);
        (histName pn tn "/hTPCfindableVsCrossed", [tpcNClsFindable q; tpcNClsCrossedRows t]);
        (histName pn tn "/hTPCshared", [tpcNClsShared t]);
        (histName pn tn "/hTPCfractionSharedCls", [tpcFractionSharedCls t]);
        (histName pn tn "/hITSclusters", [itsNCls t]);
        (histName pn tn "/hITSclustersIB", [itsNClsInnerBarrel t]);
        (histName pn tn "/hDCAxy", [pt t; dcaXY t]);
        (histName pn tn "/hDCAz", [pt t; dcaZ t]);
        (histName pn tn "/hDCA", [pt t;
                     F64.sqrt (F64.add (F64.pow2 (F64.of_float (dcaXY t)))
                                       (F64.pow2 (F64.of_float (dcaZ t))))]);
        (histName pn tn "/hTPCdEdX", [p q; tpcSignal q]);
        (histName pn tn "/nSigmaTPC_el", [p q; tpcNSigmaEl q]);
        (histName pn tn "/nSigmaTPC_pi", [p q; tpcNSigmaPi q]);
        (histName pn tn "/nSigmaTPC_K", [p q; tpcNSigmaKa q]);
        (histName pn tn "/nSigmaTPC_p", [p q; tpcNSigmaPr q]);
        (histName pn tn "/nSigmaTPC_d", [p q; tpcNSigmaDe q]);
        (histName pn tn "/nSigmaTOF_el", [p q; tofNSigmaEl q]);
        (histName pn tn "/nSigmaTOF_pi", [p q; tofNSigmaPi q]);
        (histName pn tn "/nSigmaTOF_K", [p q; tofNSigmaKa q]);
        (histName pn tn "/nSigmaTOF_p", [p q; tofNSigmaPr q]);
        (histName pn tn "/nSigmaTOF_d", [p q; tofNSigmaDe q]);
        (histName pn tn "/nSigmaComb_el", [p q; nSigmaComb (tpcNSigmaEl q) (tofNSigmaEl q)]);
        (histName pn tn "/nSigmaComb_pi", [p q; nSigmaComb (tpcNSigmaPi q) (tofNSigmaPi q)]);
        (histName pn tn "/nSigmaComb_K", [p q; nSigmaComb (tpcNSigmaKa q) (tofNSigmaKa q)]);
        (histName pn tn "/nSigmaComb_p", [p q; nSigmaComb (tpcNSigmaPr q) (tofNSigmaPr q)]);
        (histName pn tn "/nSigmaComb_d", [p q; nSigmaComb (tpcNSigmaDe q) (tofNSigmaDe q)]) ]
  end.

(** The number of axes of each histogram [init] adds: 1 for [kTH1F], 2 for
    [kTH2F], in the order of the calls. *)
Definition qaHistogramAxes : list (string * nat) :=
  combine qaHistograms
    [ 1; 1; 1; 1; 1; 1; 1; 2; 1; 1; 1; 1; 2; 2; 2; 2;
      2; 2; 2; 2; 2; 2; 2; 2; 2; 2; 2; 2; 2; 2; 2 ]%nat.

Definition getSigmaPIDMax (e : FemtoUniverseTrackSelection) : float :=
  nSigmaPIDMax e.

(** ** Further vocabulary and samples *)

(** The engine members [getCutContainer] reads. *)
Definition sameCutInputs (e1 e2 : FemtoUniverseTrackSelection) : Prop :=
  mSelections e1 = mSelections e2
  /\ kPIDspecies e1 = kPIDspecies e2
  /\ nSigmaPIDOffsetTPC e1 = nSigmaPIDOffsetTPC e2
  /\ nSigmaPIDOffsetTOF e1 = nSigmaPIDOffsetTOF e2.

(** The engine members [init] keeps and reads. *)
Definition sameInitInputs (e1 e2 : FemtoUniverseTrackSelection) : Prop :=
  mHistogramRegistry e1 = mHistogramRegistry e2
  /\ mSelections e1 = mSelections e2
  /\ nRejectNotPropagatedTracks e1 = nRejectNotPropagatedTracks e2
  /\ nSigmaPIDOffsetTPC e1 = nSigmaPIDOffsetTPC e2
  /\ nSigmaPIDOffsetTOF e1 = nSigmaPIDOffsetTOF e2
  /\ kPIDspecies e1 = kPIDspecies e2.

(** The PID criteria among the registered ones. *)
Definition onlyPID (sels : list Selection) : list Selection :=
  filter isPIDSelection sels.

(** The track with [eta], [dcaXY] and [dcaZ] negated. *)
Definition mirrored (t : Track) : Track :=
  mkTrack (sign t) (pt t) (SFopp (eta t)) (tpcNClsFound t)
    (tpcCrossedRowsOverFindableCls t) (tpcNClsCrossedRows t) (tpcNClsShared t)
    (tpcFractionSharedCls t) (itsNCls t) (itsNClsInnerBarrel t)
    (SFopp (dcaXY t)) (SFopp (dcaZ t)) (tpcNSigma t) (tofNSigma t).

(** A scalar column that a check of [isSelectedMinimal] reads. *)
Definition checkedColumn (o : Observable) : bool :=
  match o with
  | OSign | OTpcNSigma | OTofNSigma => false
  | _ => true
  end.

(** A track whose scalar columns are all NaN. *)
Definition trackNaN : Track :=
  mkTrack S754_nan S754_nan S754_nan S754_nan S754_nan S754_nan S754_nan
    S754_nan S754_nan S754_nan S754_nan S754_nan
    (fun _ => S754_nan) (fun _ => S754_nan).

(** The PID criterion of [enginePID], but no species registered. *)
Definition enginePIDNoSpecies : FemtoUniverseTrackSelection :=
  configured (registerCriterion kPIDnSigmaMax (F32.of_Z 3) []) [] engine0.

(** Cuts on [pt], [|eta|] and PID together. *)
Definition threeSelections : list Selection :=
  registerCriterion kPIDnSigmaMax (F32.of_Z 3)
    (registerCriterion kEtaMax (F32.decimal 8 1)
       (registerCriterion kpTMin (F32.decimal 5 1) [])).

Definition engineThree : FemtoUniverseTrackSelection :=
  configured threeSelections [pion; kaon] engine0.

Definition trackQA0 : TrackQA :=
  mkTrackQA track0 zero zero zero zero zero zero zero zero zero zero zero
    zero zero zero.

(** [engineThree], initialised with an empty registry. *)
Definition engineThreeQA : FemtoUniverseTrackSelection :=
  match finalize (Some []) threeSelections [pion; kaon] engine0 with
  | Done e' => e'
  | Fatal _ => engine0
  end.

(* ===================================================================== *)
(** * Part III: properties                                                *)
(* ===================================================================== *)

(** ** The evaluation monad *)

(** A loop whose body only reads the world is a fold of its value. *)
Lemma forEach_pure (A S : Type) (body : A -> S -> M S) (step : A -> S -> S)
    (w : World) :
  (forall x s, body x s w = (step x s, w)) ->
  forall l s, forEach body l s w = (fold_left (fun s x => step x s) l s, w).
Proof.
  intros Hbody l; induction l as [|x l IH]; intros s; cbn.
  - reflexivity.
  - unfold bind. rewrite Hbody. cbn. apply IH.
Qed.

Lemma collectPID_run (w : World) :
  collectPID w =
  ((map (tpcNSigma (trk w)) (kPIDspecies (self w)),
    map (tofNSigma (trk w)) (kPIDspecies (self w))), w).
Proof.
  unfold collectPID, bind, this. cbn [fst snd].
  rewrite forEach_pure
    with (step := fun it acc =>
                    (fst acc ++ [tpcNSigma (trk w) it], snd acc ++ [tofNSigma (trk w) it]))
    by reflexivity.
  f_equal.
  assert (H : forall l a b,
    fold_left
      (fun (acc : list float * list float) it =>
         (fst acc ++ [tpcNSigma (trk w) it], snd acc ++ [tofNSigma (trk w) it]))
      l (a, b)
    = (a ++ map (tpcNSigma (trk w)) l, b ++ map (tofNSigma (trk w)) l)).
  { induction l as [|p l IH]; intros a b; cbn.
    - now rewrite !app_nil_r.
    - rewrite IH. now rewrite <- !app_assoc. }
  apply (H _ [] []).
Qed.

(** The index loop over [pidTPC] finds a value below the bound exactly
    when one is there. *)
Lemma pid_loop_existsb (ok : float -> bool) (v : list float) :
  fold_left (fun isFulfilled i => if ok (at_ v i) then true else isFulfilled)
    (seq 0 (List.length v)) false
  = existsb ok v.
Proof.
  assert (H : forall pre acc,
    fold_left (fun isFulfilled i => if ok (at_ (pre ++ v) i) then true else isFulfilled)
      (seq (List.length pre) (List.length v)) acc
    = acc || existsb ok v).
  { induction v as [|x v IH]; intros pre acc; cbn.
    - now rewrite orb_false_r.
    - replace (at_ (pre ++ x :: v) (List.length pre)) with x
        by (unfold at_; now rewrite nth_middle).
      replace (pre ++ x :: v) with ((pre ++ [x]) ++ v) by now rewrite <- app_assoc.
      replace (S (List.length pre)) with (List.length (pre ++ [x]))
        by (rewrite length_app; cbn; lia).
      rewrite IH. destruct (ok x), acc; reflexivity. }
  apply (H [] false).
Qed.

Lemma pid_loop_run (offsetTPC sigmaMax : float) (v : list float) :
  fold_left
    (fun isFulfilled i =>
       let pidTPCVal := at_ v i in
       if flt (fabs (F32.sub pidTPCVal offsetTPC)) sigmaMax
       then true else isFulfilled)
    (seq 0 (List.length v)) false
  = existsb (fun x => flt (fabs (F32.sub x offsetTPC)) sigmaMax) v.
Proof.
  exact (pid_loop_existsb (fun x => flt (fabs (F32.sub x offsetTPC)) sigmaMax) v).
Qed.

Lemma existsb_map_compose (A B : Type) (f : B -> bool) (g : A -> B) (l : list A) :
  existsb f (map g l) = existsb (fun x => f (g x)) l.
Proof.
  induction l as [|x l IH]; cbn; [reflexivity | now rewrite IH].
Qed.

(** Stepping through one [bind]. *)
Lemma bind_track (A B : Type) (column : Track -> A) (k : A -> M B) (w : World) :
  bind (track column) k w = k (column (trk w)) w.
Proof. reflexivity. Qed.

Lemma bind_this (A B : Type) (member : FemtoUniverseTrackSelection -> A)
    (k : A -> M B) (w : World) :
  bind (this member) k w = k (member (self w)) w.
Proof. reflexivity. Qed.

Lemma bind_collectPID (B : Type) (k : list float * list float -> M B) (w : World) :
  bind collectPID k w
  = k (map (tpcNSigma (trk w)) (kPIDspecies (self w)),
       map (tofNSigma (trk w)) (kPIDspecies (self w))) w.
Proof. unfold bind. now rewrite collectPID_run. Qed.

(** ** isSelectedMinimal, as a value *)

(** [isSelectedMinimal] returns [true] exactly when no active check
    rejects; the world it leaves is the one it found. *)
Lemma isSelectedMinimal_run (w : World) :
  isSelectedMinimal w =
  (forallb (fun k => negb (rejects (self w) (trk w) k)) allKinds
   && negb (notPropagated (self w) (trk w)), w).
Proof.
  unfold isSelectedMinimal.
  repeat (rewrite bind_track; cbv beta).
  rewrite bind_collectPID. cbv beta. cbn [fst snd].
  unfold notPropagated.
  cbn [forallb allKinds rejects minimalCount threshold minimalObservable
       columnValue violates].
  change (0 <? 0) with false. cbn [andb negb].
  repeat (rewrite bind_this; cbv beta;
          match goal with
          | |- (if ?c then ret false else _) _ = _ =>
              destruct c; cbn [negb andb]; [now rewrite ?andb_false_r|]
          end).
  rewrite !andb_true_r.
  rewrite bind_this. cbv beta.
  destruct (0 <? nPIDnSigmaSel (self w)); cbn [negb andb]; [|reflexivity].
  rewrite !bind_this. cbv beta.
  rewrite pid_loop_run, existsb_map_compose.
  unfold pidFulfilled. destruct (existsb _ _); reflexivity.
Qed.

Lemma isSelectedMinimal_value (e : FemtoUniverseTrackSelection) (t : Track) :
  run isSelectedMinimal e t =
  forallb (fun k => negb (rejects e t k)) allKinds && negb (notPropagated e t).
Proof.
  unfold run. now rewrite isSelectedMinimal_run.
Qed.

(** A rejecting check makes the whole evaluation fail. *)
Lemma rejects_false (e : FemtoUniverseTrackSelection) (t : Track) (k : TrackSel) :
  rejects e t k = true -> run isSelectedMinimal e t = false.
Proof.
  intros H. rewrite isSelectedMinimal_value.
  assert (Hf : forallb (fun k => negb (rejects e t k)) allKinds = false).
  { apply not_true_is_false. intros Hall.
    rewrite forallb_forall in Hall.
    assert (Hin : In k allKinds) by (destruct k; cbn; tauto).
    specialize (Hall k Hin). now rewrite H in Hall. }
  now rewrite Hf.
Qed.

(** With no rejecting check and no sentinel rejection the track passes. *)
Lemma no_reject_true (e : FemtoUniverseTrackSelection) (t : Track) :
  (forall k, rejects e t k = false) -> notPropagated e t = false ->
  run isSelectedMinimal e t = true.
Proof.
  intros H Hn. rewrite isSelectedMinimal_value, Hn.
  cbn [forallb allKinds]. now rewrite !H.
Qed.

(** ** The static catalogue *)

(** C1.  The table [kSelectionTypes] agrees with the listed comparison kind
    for every selection variable except [kDCAMin]: there the listed kind is
    [kAbsLowerLimit] (minimum-DCA semantics) and the table holds
    [kAbsUpperLimit].  Evaluates [getSelectionType] on all 15 variables. *)
Theorem getSelectionType_table :
  map getSelectionType allKinds =
    [ kEqual; kLowerLimit; kUpperLimit; kAbsUpperLimit; kLowerLimit;
      kLowerLimit; kLowerLimit; kUpperLimit; kUpperLimit; kLowerLimit;
      kLowerLimit; kAbsUpperLimit; kAbsUpperLimit; kAbsUpperLimit;
      kAbsUpperLimit ]
  /\ map listedSelectionType allKinds =
    [ kEqual; kLowerLimit; kUpperLimit; kAbsUpperLimit; kLowerLimit;
      kLowerLimit; kLowerLimit; kUpperLimit; kUpperLimit; kLowerLimit;
      kLowerLimit; kAbsUpperLimit; kAbsUpperLimit; kAbsLowerLimit;
      kAbsUpperLimit ]
  /\ getSelectionType kDCAMin = kAbsUpperLimit
  /\ listedSelectionType kDCAMin = kAbsLowerLimit.
Proof.
  repeat split; reflexivity.
Qed.

(** ** Selection names *)

Lemma string_append_empty_r (s : string) : (s ++ "")%string = s.
Proof.
  induction s as [|c s IH]; cbn; [reflexivity | now rewrite IH].
Qed.

Lemma string_eqb_append_prefix (p a b : string) :
  String.eqb (p ++ a) (p ++ b) = String.eqb a b.
Proof.
  induction p as [|c p IH]; cbn.
  - reflexivity.
  - now rewrite Ascii.eqb_refl.
Qed.

(** Looking up [prefix ++ s] with prefix [prefix] is looking up [s] with
    no prefix. *)
Lemma findSelectionIndex_loop_prefix (p s : string) :
  forall todo index,
    findSelectionIndex_loop todo index (p ++ s) p
    = findSelectionIndex_loop todo index s EmptyString.
Proof.
  induction todo as [|todo IH]; intros index; cbn [findSelectionIndex_loop].
  - reflexivity.
  - rewrite string_eqb_append_prefix, IH. reflexivity.
Qed.

(** The loop answers [-1] or an index whose prefixed name is the string
    looked up. *)
Lemma findSelectionIndex_loop_sound (obs p : string) :
  forall todo index,
    findSelectionIndex_loop todo index obs p = -1
    \/ exists i, (index <= i < index + todo)%nat
                 /\ obs = (p ++ selectionNameAt i)%string
                 /\ findSelectionIndex_loop todo index obs p = Z.of_nat i.
Proof.
  induction todo as [|todo IH]; intros index; cbn [findSelectionIndex_loop].
  - now left.
  - destruct (String.eqb obs (p ++ selectionNameAt index)) eqn:E.
    + right. exists index. apply String.eqb_eq in E. repeat split; auto; lia.
    + destruct (IH (S index)) as [H | (i & Hi & Ho & Hr)].
      * now left.
      * right. exists i. repeat split; auto; lia.
Qed.

(** C10.  Selection names round-trip through the index lookup: for every
    selection variable and every prefix, [findSelectionIndex] of the
    prefixed name is the variable's index; the 15 names are pairwise
    distinct; and a string that is not the prefix followed by a catalogue
    name is answered with [-1]. *)
Theorem findSelectionIndex_roundtrip :
  (forall (iSel : TrackSel) (p : string),
     findSelectionIndex (getSelectionName iSel p EmptyString) p
     = Z.of_nat (TrackSel_to_nat iSel))
  /\ (forall iSel jSel : TrackSel,
        getSelectionName iSel EmptyString EmptyString
        = getSelectionName jSel EmptyString EmptyString -> iSel = jSel)
  /\ (forall obs p : string,
        (forall iSel : TrackSel,
           obs <> getSelectionName iSel p EmptyString) ->
        findSelectionIndex obs p = -1).
Proof.
  split; [|split].
  - intros iSel p. unfold findSelectionIndex, getSelectionName.
    rewrite string_append_empty_r, findSelectionIndex_loop_prefix.
    destruct iSel; reflexivity.
  - intros iSel jSel H. destruct iSel, jSel; try reflexivity; discriminate H.
  - intros obs p H. unfold findSelectionIndex.
    destruct (findSelectionIndex_loop_sound obs p kNtrackSelection 0)
      as [Hr | (i & Hi & Ho & _)]; [exact Hr|].
    exfalso. unfold kNtrackSelection in Hi.
    assert (Hk : exists iSel, TrackSel_to_nat iSel = i).
    { do 15 (destruct i as [|i];
             [ eexists; match goal with |- TrackSel_to_nat ?k = _ =>
                 first [ instantiate (1 := kSign); reflexivity
                       | instantiate (1 := kpTMin); reflexivity
                       | instantiate (1 := kpTMax); reflexivity
                       | instantiate (1 := kEtaMax); reflexivity
                       | instantiate (1 := kTPCnClsMin); reflexivity
                       | instantiate (1 := kTPCfClsMin); reflexivity
                       | instantiate (1 := kTPCcRowsMin); reflexivity
                       | instantiate (1 := kTPCsClsMax); reflexivity
                       | instantiate (1 := kTPCfracsClsMax); reflexivity
                       | instantiate (1 := kITSnClsMin); reflexivity
                       | instantiate (1 := kITSnClsIbMin); reflexivity
                       | instantiate (1 := kDCAxyMax); reflexivity
                       | instantiate (1 := kDCAzMax); reflexivity
                       | instantiate (1 := kDCAMin); reflexivity
                       | instantiate (1 := kPIDnSigmaMax); reflexivity ] end
             |]).
      lia. }
    destruct Hk as [iSel <-]. apply (H iSel). rewrite Ho.
    unfold getSelectionName. now rewrite string_append_empty_r.
Qed.

Lemma findSelectionIndex_roundtrip_witness :
  findSelectionIndex "ConfTrkPtMin" "ConfTrk" = 1
  /\ kDCAMin = kDCAMin
  /\ findSelectionIndex "ConfTrkPt" "ConfTrk" = -1.
Proof.
  destruct findSelectionIndex_roundtrip as (Hfound & Hdistinct & Hmissing).
  split; [|split].
  - exact (Hfound kpTMin "ConfTrk"%string).
  - apply Hdistinct. reflexivity.
  - apply Hmissing. intros iSel. destruct iSel; discriminate.
Defined.

Example enginePtMax_fields :
  nPtMaxSel enginePtMax = 1 /\ pTMax enginePtMax = F32.of_Z 1
  /\ nPtMinSel enginePtMax = 0.
Proof. repeat split; reflexivity. Qed.

Example enginePID_fields :
  nPIDnSigmaSel enginePID = 1 /\ nSigmaPIDMax enginePID = F32.of_Z 3
  /\ kPIDspecies enginePID = [pion; kaon].
Proof. repeat split; reflexivity. Qed.

(** ** Comparisons of IEEE values *)





(** For [T >= 0], [| -T | > T] is false. *)
Lemma fabs_opp_not_gt (T : spec_float) :
  fle zero T = true -> fgt (fabs (SFopp T)) T = false.
Proof.
  unfold fle, fgt, fabs, zero, SFleb, SFltb.
  destruct T as [[]|[]| |[] m e]; cbn; try discriminate; try reflexivity;
    intros _; rewrite Z.compare_refl;
    change (Pos.compare_cont Eq m m) with (Pos.compare m m);
    now rewrite Pos.compare_refl.
Qed.


(** ** isSelectedMinimal: the rejection of tracks not propagated *)

(** C7.  With the rejection of not-propagated tracks enabled, every track
    whose [|dcaXY|] exceeds 1000 is rejected by [isSelectedMinimal],
    whatever the other cuts are and whether they pass. *)
Theorem isSelectedMinimal_rejects_not_propagated
    (e : FemtoUniverseTrackSelection) (t : Track) :
  nRejectNotPropagatedTracks e = true ->
  fgt (F64.of_float (fabs (dcaXY t))) (F64.of_Z 1000) = true ->
  run isSelectedMinimal e t = false.
Proof.
  intros Hflag Hdca. rewrite isSelectedMinimal_value.
  unfold notPropagated. rewrite Hflag, Hdca. cbn [andb negb].
  apply andb_false_r.
Qed.

(** A track with [dcaXY = 2000] and the flag enabled is rejected. *)
Lemma isSelectedMinimal_rejects_not_propagated_witness :
  run isSelectedMinimal engineReject (withDCA (F32.of_Z 2000) zero track0) = false.
Proof.
  apply isSelectedMinimal_rejects_not_propagated; reflexivity.
Defined.

(** ** isSelectedMinimal: the PID check *)

Lemma pidFulfilled_exists (e : FemtoUniverseTrackSelection) (t : Track) :
  pidFulfilled e t = true <->
  exists pid, In pid (kPIDspecies e)
    /\ flt (fabs (F32.sub (tpcNSigma t pid) (nSigmaPIDOffsetTPC e)))
           (nSigmaPIDMax e) = true.
Proof.
  unfold pidFulfilled. apply existsb_exists.
Qed.



(** ** isSelectedMinimal: the boundaries of the checks *)


Lemma fabs_opp (T : spec_float) : fabs (SFopp T) = fabs T.
Proof. destruct T as [[]|[]| |[] m e]; reflexivity. Qed.


Lemma TrackSel_eq_dec (k k' : TrackSel) : {k = k'} + {k <> k'}.
Proof. decide equality. Qed.




(** ** isSelectedMinimal: kinds without criteria *)

Lemma Observable_eq_dec (o o' : Observable) : {o = o'} + {o <> o'}.
Proof. decide equality. Qed.

Lemma pidFulfilled_agree (e : FemtoUniverseTrackSelection) (t1 t2 : Track) :
  agree OTpcNSigma t1 t2 -> pidFulfilled e t1 = pidFulfilled e t2.
Proof.
  cbn [agree]. intros H. unfold pidFulfilled.
  induction (kPIDspecies e) as [|pid l IH]; cbn; [reflexivity|].
  now rewrite H, IH.
Qed.

(** The check of a kind reads the track through its one column only. *)
Lemma rejects_agree (e : FemtoUniverseTrackSelection) (t1 t2 : Track) (k : TrackSel) :
  agree (minimalObservable k) t1 t2 -> rejects e t1 k = rejects e t2 k.
Proof.
  destruct k; cbn [minimalObservable agree rejects columnValue];
    try (intros ->; reflexivity).
  intros H. now rewrite (pidFulfilled_agree e t1 t2 H).
Qed.

(** The check of a kind with count 0 rejects nothing. *)
Lemma rejects_inactive (e : FemtoUniverseTrackSelection) (t : Track) (k : TrackSel) :
  minimalCount e k = 0 -> rejects e t k = false.
Proof.
  destruct k; cbn [rejects minimalCount]; try reflexivity; now intros ->.
Qed.

(** C8 (amended).  A kind with count 0 is skipped by [isSelectedMinimal]:
    two tracks that differ only in the column of that kind get the same
    answer, provided every kind reading that column has count 0 ([pt] is
    read by [kpTMin] and [kpTMax], [dcaXY] by [kDCAxyMax] and [kDCAMin]) and,
    for [dcaXY], the rejection of not-propagated tracks is disabled. *)
Theorem isSelectedMinimal_skips_inactive_kind
    (e : FemtoUniverseTrackSelection) (k : TrackSel) (t1 t2 : Track) :
  (forall k', minimalObservable k' = minimalObservable k -> minimalCount e k' = 0) ->
  (minimalObservable k = ODcaXY -> nRejectNotPropagatedTracks e = false) ->
  differOnlyIn (minimalObservable k) t1 t2 ->
  run isSelectedMinimal e t1 = run isSelectedMinimal e t2.
Proof.
  intros Hcount Hflag Hdiff. rewrite !isSelectedMinimal_value.
  assert (Hrej : forall k', rejects e t1 k' = rejects e t2 k').
  { intros k'.
    destruct (Observable_eq_dec (minimalObservable k') (minimalObservable k)) as [Heq | Hne].
    - now rewrite !rejects_inactive by auto.
    - apply rejects_agree, Hdiff, Hne. }
  assert (Hnp : notPropagated e t1 = notPropagated e t2).
  { unfold notPropagated.
    destruct (Observable_eq_dec ODcaXY (minimalObservable k)) as [Heq | Hne].
    - now rewrite Hflag.
    - specialize (Hdiff ODcaXY Hne). cbn [agree] in Hdiff. now rewrite Hdiff. }
  rewrite Hnp. f_equal.
  induction allKinds as [|k' l IH]; cbn [forallb]; [reflexivity|].
  now rewrite Hrej, IH.
Qed.

Lemma differOnlyIn_withPt (x y : float) (t : Track) :
  differOnlyIn OPt (withPt x t) (withPt y t).
Proof.
  intros o' Hne. destruct o'; cbn; try reflexivity. congruence.
Qed.

(** With only the [|eta|] cut configured, [pt] is not looked at. *)
Lemma isSelectedMinimal_skips_inactive_kind_witness :
  run isSelectedMinimal engineEtaMax (withPt (F32.decimal 5 1) track0)
  = run isSelectedMinimal engineEtaMax (withPt (F32.of_Z 2) track0).
Proof.
  apply (isSelectedMinimal_skips_inactive_kind engineEtaMax kpTMin).
  - intros k' Hk'. destruct k'; try discriminate Hk'; reflexivity.
  - discriminate.
  - apply differOnlyIn_withPt.
Defined.

(** The kind [kpTMin] has count 0 and the two tracks differ only in [pt],
    its column; the [kpTMax] cut reads [pt] too and tells them apart. *)
Lemma isSelectedMinimal_inactive_kind_shared_column :
  minimalCount enginePtMax kpTMin = 0
  /\ differOnlyIn (minimalObservable kpTMin)
       (withPt (F32.decimal 5 1) track0) (withPt (F32.of_Z 2) track0)
  /\ run isSelectedMinimal enginePtMax (withPt (F32.decimal 5 1) track0) = true
  /\ run isSelectedMinimal enginePtMax (withPt (F32.of_Z 2) track0) = false
  /\ ~ (forall (e : FemtoUniverseTrackSelection) (k : TrackSel) (t1 t2 : Track),
          minimalCount e k = 0 ->
          (minimalObservable k = ODcaXY -> nRejectNotPropagatedTracks e = false) ->
          differOnlyIn (minimalObservable k) t1 t2 ->
          run isSelectedMinimal e t1 = run isSelectedMinimal e t2).
Proof.
  split; [reflexivity|]. split; [apply differOnlyIn_withPt|].
  split; [reflexivity|]. split; [reflexivity|].
  intros H.
  specialize (H enginePtMax kpTMin
                (withPt (F32.decimal 5 1) track0) (withPt (F32.of_Z 2) track0)
                eq_refl).
  assert (Hd : run isSelectedMinimal enginePtMax (withPt (F32.decimal 5 1) track0)
               = run isSelectedMinimal enginePtMax (withPt (F32.of_Z 2) track0)).
  { apply H; [discriminate | apply differOnlyIn_withPt]. }
  discriminate Hd.
Qed.

(** ** getCutContainer, as a value *)

Lemma getCutContainer_run (sizeofCutContainerType : Z) (w : World) :
  getCutContainer sizeofCutContainerType w =
  (let loc := cutLoop (8 * sizeofCutContainerType) (self w) (trk w)
                (mSelections (self w)) (mkLocals (S754_zero false) 0 0 0) in
   (output loc, outputPID loc), w).
Proof.
  unfold getCutContainer. cbv zeta.
  repeat (rewrite bind_track; cbv beta).
  rewrite bind_collectPID. cbv beta. cbn [fst snd].
  rewrite bind_this. cbv beta. unfold bind at 1.
  rewrite forEach_pure
    with (step := cutStep (8 * sizeofCutContainerType) (self w) (trk w)).
  - reflexivity.
  - intros sel loc. unfold cutStep, isPIDSelection, cutObservable, cutColumn.
    destruct (Nat.eqb _ _); [reflexivity|].
    destruct (TrackSel_of_nat (getSelectionVariable sel)) as [[]|]; reflexivity.
Qed.

(** ** Evaluation leaves the engine and the track as they were *)

(** A write to a member shows in the world that is returned. *)
Example assign_is_visible :
  snd (assign (setRejectNotPropagatedTracks true) (mkWorld engine0 track0))
  <> mkWorld engine0 track0.
Proof. cbn. discriminate. Qed.

(** C9.  Per-track evaluation is read-only: [isSelectedMinimal] and
    [getCutContainer] return the world they were given, the engine (criteria,
    collapsed thresholds, counts, species, offsets, flags) and the track
    unchanged; what they write are their own locals. *)
Theorem evaluation_is_read_only (sizeofCutContainerType : Z) (w : World) :
  snd (isSelectedMinimal w) = w
  /\ snd (getCutContainer sizeofCutContainerType w) = w
  /\ self (snd (isSelectedMinimal w)) = self w
  /\ trk (snd (isSelectedMinimal w)) = trk w
  /\ self (snd (getCutContainer sizeofCutContainerType w)) = self w
  /\ trk (snd (getCutContainer sizeofCutContainerType w)) = trk w.
Proof.
  rewrite isSelectedMinimal_run, getCutContainer_run. cbn [snd].
  repeat split; reflexivity.
Qed.

(** ** init: the size of the bit container *)

Lemma nOrdinarySelections_nonneg (e : FemtoUniverseTrackSelection) :
  0 <= nOrdinarySelections e.
Proof.
  unfold nOrdinarySelections, getNSelections, getNSelectionsOf.
  pose proof (filter_length_le
    (fun sel => Nat.eqb (getSelectionVariable sel) (TrackSel_to_nat kPIDnSigmaMax))
    (mSelections e)).
  lia.
Qed.

(** C3 (amended).  [init] checks the number of non-PID selections against
    the bit width [8 * sizeof(CutContainerType)] only when it is given a
    registry: then a larger number is fatal and no engine results, while a
    number up to the width, the width itself included, lets [init] succeed.
    Without a registry the check is not made and [init] succeeds whatever
    the number.  (The number is held in an [unsigned int]; it is taken
    below [2 ^ 32].) *)
Theorem init_container_width_check
    (sizeofCutContainerType : Z) (particleTypeName trackTypeName : string)
    (registry : option HistogramRegistry) (e : FemtoUniverseTrackSelection) :
  nOrdinarySelections e < 2 ^ 32 ->
  (registry <> None ->
   8 * sizeofCutContainerType < nOrdinarySelections e ->
   exists message,
     init sizeofCutContainerType particleTypeName trackTypeName registry e
     = Fatal message)
  /\ (nOrdinarySelections e <= 8 * sizeofCutContainerType ->
      exists e',
        init sizeofCutContainerType particleTypeName trackTypeName registry e
        = Done e' /\ mSelections e' = mSelections e)
  /\ (registry = None ->
      exists e',
        init sizeofCutContainerType particleTypeName trackTypeName registry e
        = Done e' /\ mSelections e' = mSelections e).
Proof.
  intros Hsmall. pose proof (nOrdinarySelections_nonneg e) as Hpos.
  assert (Hu : to_unsigned (nOrdinarySelections e) = nOrdinarySelections e).
  { unfold to_unsigned. apply Z.mod_small. lia. }
  unfold init, initRegistry. fold (nOrdinarySelections e). rewrite Hu.
  split; [|split].
  - intros Hreg Hover. destruct registry as [r|]; [|congruence].
    apply Z.ltb_lt in Hover. rewrite Hover. eexists; reflexivity.
  - intros Hfit. destruct registry as [r|].
    + apply Z.ltb_ge in Hfit. rewrite Hfit. eexists; split; reflexivity.
    + eexists; split; reflexivity.
  - intros ->. eexists; split; reflexivity.
Qed.

Lemma init_container_width_check_witness :
  (exists message,
     init 1 "Tracks" "Track" (Some [])
       (withSelections nineSelections engine0) = Fatal message)
  /\ (exists e',
        init 1 "Tracks" "Track" (Some [])
          (withSelections eightSelections engine0) = Done e'
        /\ mSelections e' = eightSelections)
  /\ (exists e',
        init 1 "Tracks" "Track" None
          (withSelections nineSelections engine0) = Done e'
        /\ mSelections e' = nineSelections).
Proof.
  split; [|split].
  - refine (proj1 (init_container_width_check 1 "Tracks" "Track" (Some [])
                     (withSelections nineSelections engine0) _) _ _).
    + reflexivity.
    + discriminate.
    + reflexivity.
  - refine (proj1 (proj2 (init_container_width_check 1 "Tracks" "Track" (Some [])
                            (withSelections eightSelections engine0) _)) _).
    + reflexivity.
    + vm_compute. discriminate.
  - refine (proj2 (proj2 (init_container_width_check 1 "Tracks" "Track" None
                            (withSelections nineSelections engine0) _)) _).
    + reflexivity.
    + reflexivity.
Defined.

(** Nine non-PID selections for a container of eight bits, and no
    registry: [init] succeeds. *)
Lemma init_without_registry_skips_check :
  nOrdinarySelections (withSelections nineSelections engine0) = 9
  /\ 8 * 1 < nOrdinarySelections (withSelections nineSelections engine0)
  /\ exists e',
       init 1 "Tracks" "Track" None (withSelections nineSelections engine0)
       = Done e'.
Proof.
  split; [reflexivity|]. split; [reflexivity|].
  eexists. reflexivity.
Qed.

(** ** getCutContainer: the bits of the ordinary container *)

Lemma setBit_spec (width container index j : Z) :
  0 <= index -> 0 <= j < width ->
  Z.testbit (setBit width container index) j
  = Z.testbit container j || (index =? j).
Proof.
  intros Hi Hj. unfold setBit.
  rewrite Z.mod_pow2_bits_low by lia.
  rewrite Z.lor_spec, Z.shiftl_1_l, Z.pow2_bits_eqb by lia.
  reflexivity.
Qed.

Lemma setBit_high (width container index j : Z) :
  0 <= width <= j -> Z.testbit (setBit width container index) j = false.
Proof.
  intros Hj. unfold setBit. now apply Z.mod_pow2_bits_high.
Qed.

Section CutLoop.

Variable width : Z.
Variable e : FemtoUniverseTrackSelection.
Variable t : Track.
Hypothesis width_nonneg : 0 <= width.

Lemma cutLoop_app (pre post : list Selection) (loc : Locals) :
  cutLoop width e t (pre ++ post) loc
  = cutLoop width e t post (cutLoop width e t pre loc).
Proof. unfold cutLoop. apply fold_left_app. Qed.

Lemma cutStep_counter (sel : Selection) (loc : Locals) :
  counter (cutStep width e t sel loc)
  = counter loc + (if isPIDSelection sel then 0 else 1).
Proof.
  unfold cutStep. destruct (isPIDSelection sel); cbn; lia.
Qed.

Lemma cutStep_observable (sel : Selection) (loc : Locals) :
  observable (cutStep width e t sel loc)
  = if isPIDSelection sel then observable loc
    else cutObservable t (getSelectionVariable sel) (observable loc).
Proof.
  unfold cutStep. destruct (isPIDSelection sel); reflexivity.
Qed.

Lemma cutStep_output (sel : Selection) (loc : Locals) :
  output (cutStep width e t sel loc)
  = if isPIDSelection sel then output loc
    else if isSelected sel
              (cutObservable t (getSelectionVariable sel) (observable loc))
         then setBit width (output loc) (counter loc)
         else output loc.
Proof.
  unfold cutStep, checkSelectionSetBit.
  destruct (isPIDSelection sel); reflexivity.
Qed.

(** The counter advances by one per non-PID criterion. *)
Lemma cutLoop_counter (sels : list Selection) (loc : Locals) :
  counter (cutLoop width e t sels loc)
  = counter loc + Z.of_nat (List.length (nonPID sels)).
Proof.
  revert loc. induction sels as [|sel sels IH]; intros loc.
  - cbn. lia.
  - change (cutLoop width e t (sel :: sels) loc)
      with (cutLoop width e t sels (cutStep width e t sel loc)).
    rewrite IH, cutStep_counter. unfold nonPID. cbn [filter].
    destruct (isPIDSelection sel); cbn [negb List.length]; lia.
Qed.

(** [observable] holds what the last switch left in it. *)
Lemma cutLoop_observable (sels : list Selection) (loc : Locals) :
  observable (cutLoop width e t sels loc)
  = fold_left (fun obs sel => cutObservable t (getSelectionVariable sel) obs)
      (nonPID sels) (observable loc).
Proof.
  revert loc. induction sels as [|sel sels IH]; intros loc.
  - reflexivity.
  - change (cutLoop width e t (sel :: sels) loc)
      with (cutLoop width e t sels (cutStep width e t sel loc)).
    rewrite IH, cutStep_observable. unfold nonPID. cbn [filter].
    destruct (isPIDSelection sel); reflexivity.
Qed.

(** The bits from the counter upwards are still clear. *)
Lemma cutLoop_high_bits (sels : list Selection) (loc : Locals) :
  0 <= counter loc ->
  (forall j, counter loc <= j -> Z.testbit (output loc) j = false) ->
  forall j, counter (cutLoop width e t sels loc) <= j ->
            Z.testbit (output (cutLoop width e t sels loc)) j = false.
Proof.
  revert loc. induction sels as [|sel sels IH]; intros loc Hc Hhigh j Hj.
  - now apply Hhigh.
  - change (cutLoop width e t (sel :: sels) loc)
      with (cutLoop width e t sels (cutStep width e t sel loc)) in *.
    apply IH; [rewrite cutStep_counter; destruct (isPIDSelection sel); lia | | exact Hj].
    intros i Hi. rewrite cutStep_counter in Hi. rewrite cutStep_output.
    destruct (isPIDSelection sel); [apply Hhigh; lia|].
    destruct (isSelected _ _); [|apply Hhigh; lia].
    destruct (Z_lt_le_dec i width) as [Hlow | Hhi].
    + rewrite setBit_spec by lia. rewrite Hhigh by lia.
      cbn [orb]. apply Z.eqb_neq. lia.
    + apply setBit_high. lia.
Qed.

(** The bits below the counter are not touched any more. *)
Lemma cutLoop_low_bits (sels : list Selection) (loc : Locals) (j : Z) :
  0 <= j < counter loc -> j < width ->
  Z.testbit (output (cutLoop width e t sels loc)) j = Z.testbit (output loc) j.
Proof.
  revert loc. induction sels as [|sel sels IH]; intros loc Hj Hw.
  - reflexivity.
  - change (cutLoop width e t (sel :: sels) loc)
      with (cutLoop width e t sels (cutStep width e t sel loc)).
    rewrite IH; [| rewrite cutStep_counter; destruct (isPIDSelection sel); lia | exact Hw].
    rewrite cutStep_output.
    destruct (isPIDSelection sel); [reflexivity|].
    destruct (isSelected _ _); [|reflexivity].
    rewrite setBit_spec by lia.
    replace (counter loc =? j) with false by (symmetry; apply Z.eqb_neq; lia).
    apply orb_false_r.
Qed.

(** The bit of a non-PID criterion is the outcome of its test on the
    observable in effect when it is reached. *)
Lemma cutLoop_bit (pre post : list Selection) (sel : Selection) :
  isPIDSelection sel = false ->
  Z.of_nat (List.length (nonPID pre)) < width ->
  Z.testbit
    (output (cutLoop width e t (pre ++ sel :: post) (mkLocals (S754_zero false) 0 0 0)))
    (Z.of_nat (List.length (nonPID pre)))
  = isSelected sel
      (cutObservable t (getSelectionVariable sel) (observableAfter t pre)).
Proof.
  intros Hsel Hw.
  set (loc0 := mkLocals (S754_zero false) 0 0 0).
  set (loc1 := cutLoop width e t pre loc0).
  assert (Hc1 : counter loc1 = Z.of_nat (List.length (nonPID pre))).
  { unfold loc1. rewrite cutLoop_counter. cbn. lia. }
  assert (Ho1 : observable loc1 = observableAfter t pre).
  { unfold loc1. now rewrite cutLoop_observable. }
  assert (Hh1 : Z.testbit (output loc1) (counter loc1) = false).
  { unfold loc1. apply cutLoop_high_bits; cbn; try lia.
    intros j _. apply Z.bits_0. }
  rewrite cutLoop_app. fold loc1.
  change (cutLoop width e t (sel :: post) loc1)
    with (cutLoop width e t post (cutStep width e t sel loc1)).
  rewrite cutLoop_low_bits;
    [| rewrite cutStep_counter, Hsel; lia | exact Hw].
  rewrite cutStep_output, Hsel, Ho1, <- Hc1.
  destruct (isSelected _ _); [|exact Hh1].
  rewrite setBit_spec by lia. rewrite Z.eqb_refl. apply orb_true_r.
Qed.

End CutLoop.

Lemma getCutContainer_value (sizeofCutContainerType : Z)
    (e : FemtoUniverseTrackSelection) (t : Track) :
  fst (run (getCutContainer sizeofCutContainerType) e t)
  = output (cutLoop (8 * sizeofCutContainerType) e t (mSelections e)
              (mkLocals (S754_zero false) 0 0 0)).
Proof.
  unfold run. now rewrite getCutContainer_run.
Qed.

Lemma TrackSel_of_nat_Some (n : nat) (k : TrackSel) :
  TrackSel_of_nat n = Some k -> n = TrackSel_to_nat k.
Proof.
  do 15 (destruct n as [|n]; [intros H; injection H as <-; reflexivity|]).
  discriminate.
Qed.

(** The bit a non-PID criterion takes in the ordinary container. *)
Lemma getCutContainer_bit (sizeofCutContainerType : Z)
    (e : FemtoUniverseTrackSelection) (t : Track)
    (pre post : list Selection) (sel : Selection) :
  mSelections e = pre ++ sel :: post ->
  isPIDSelection sel = false ->
  Z.of_nat (List.length (nonPID pre)) < 8 * sizeofCutContainerType ->
  Z.testbit (fst (run (getCutContainer sizeofCutContainerType) e t))
    (Z.of_nat (List.length (nonPID pre)))
  = isSelected sel
      (cutObservable t (getSelectionVariable sel) (observableAfter t pre)).
Proof.
  intros Hsels Hsel Hw. rewrite getCutContainer_value, Hsels.
  apply cutLoop_bit; [lia | exact Hsel | exact Hw].
Qed.

(** ** getCutContainer: a variable outside the enumerators *)

(** C4 (amended).  In [getCutContainer] a non-PID criterion whose variable
    matches no case of the switch leaves [observable] as the previous
    criterion left it (0 for the first) and is then tested like any other:
    it takes the next bit, and the bit is set exactly when that stale
    observable passes its test.  The bit of a criterion whose variable is
    an enumerator is the outcome of its test on its own column, whatever
    the other criteria are. *)
Theorem getCutContainer_unmatched_variable
    (sizeofCutContainerType : Z) (e : FemtoUniverseTrackSelection) (t : Track)
    (pre post : list Selection) (sel : Selection) :
  mSelections e = pre ++ sel :: post ->
  isPIDSelection sel = false ->
  Z.of_nat (List.length (nonPID pre)) < 8 * sizeofCutContainerType ->
  (TrackSel_of_nat (getSelectionVariable sel) = None ->
   Z.testbit (fst (run (getCutContainer sizeofCutContainerType) e t))
     (Z.of_nat (List.length (nonPID pre)))
   = isSelected sel (observableAfter t pre))
  /\ (forall k, TrackSel_of_nat (getSelectionVariable sel) = Some k ->
      Z.testbit (fst (run (getCutContainer sizeofCutContainerType) e t))
        (Z.of_nat (List.length (nonPID pre)))
      = isSelected sel (cutColumn t k)).
Proof.
  intros Hsels Hsel Hw.
  rewrite (getCutContainer_bit _ _ _ _ _ _ Hsels Hsel Hw).
  unfold cutObservable. split.
  - now intros ->.
  - intros k Hk. rewrite Hk. destruct k; try reflexivity.
    apply TrackSel_of_nat_Some in Hk. unfold isPIDSelection in Hsel.
    rewrite Hk, Nat.eqb_refl in Hsel. discriminate.
Qed.

Lemma getCutContainer_unmatched_variable_witness :
  Z.testbit (fst (run (getCutContainer 1) engineUnknown track0)) 0
  = isSelected selUnknown (observableAfter track0 [])
  /\ Z.testbit (fst (run (getCutContainer 1) engineDCAMin trackDCA)) 0
     = isSelected selDCAMin (cutColumn trackDCA kDCAMin).
Proof.
  split.
  - refine (proj1 (getCutContainer_unmatched_variable 1 engineUnknown track0
                     [] [] selUnknown _ _ _) _); reflexivity.
  - refine (proj2 (getCutContainer_unmatched_variable 1 engineDCAMin trackDCA
                     [] [] selDCAMin _ _ _) kDCAMin _); reflexivity.
Defined.

(** The variable 15 matches no case of the switch, yet the criterion sets
    bit 0 of the container. *)
Lemma getCutContainer_unmatched_variable_sets_bit :
  mSelections engineUnknown = [selUnknown]
  /\ TrackSel_of_nat (getSelectionVariable selUnknown) = None
  /\ fst (run (getCutContainer 1) engineUnknown track0) = 1
  /\ Z.testbit (fst (run (getCutContainer 1) engineUnknown track0)) 0 = true.
Proof.
  repeat split; reflexivity.
Qed.

(** ** The DCA of the two evaluation paths *)

(** C2.  The minimum-DCA check of [isSelectedMinimal] is made on [dcaXY]
    alone: it rejects exactly when [|dcaXY|] is below the threshold, whatever
    [dcaZ] is.  The [kDCAMin] bit of [getCutContainer] is the test of the
    criterion on [sqrt(dcaXY^2 + dcaZ^2)].  For [dcaXY = 0.1], [dcaZ = 0.2]
    the two values differ, and with a minimum of 0.15 the first path rejects
    the track while the second sets the bit. *)
Theorem dca_minimal_and_cut_container_differ :
  (forall (e : FemtoUniverseTrackSelection) (t : Track),
     0 < nDCAMinSel e ->
     flt (fabs (dcaXY t)) (dcaMin e) = true ->
     run isSelectedMinimal e t = false)
  /\ (forall (e : FemtoUniverseTrackSelection) (t : Track),
        (forall k, k <> kDCAMin -> rejects e t k = false) ->
        notPropagated e t = false ->
        flt (fabs (dcaXY t)) (dcaMin e) = false ->
        run isSelectedMinimal e t = true)
  /\ (forall (sizeofCutContainerType : Z) (e : FemtoUniverseTrackSelection)
             (t : Track) (pre post : list Selection) (sel : Selection),
        mSelections e = pre ++ sel :: post ->
        getSelectionVariable sel = TrackSel_to_nat kDCAMin ->
        Z.of_nat (List.length (nonPID pre)) < 8 * sizeofCutContainerType ->
        Z.testbit (fst (run (getCutContainer sizeofCutContainerType) e t))
          (Z.of_nat (List.length (nonPID pre)))
        = isSelected sel
            (F32.of_double
               (F64.sqrt (F64.add (F64.pow2 (F64.of_float (dcaXY t)))
                                  (F64.pow2 (F64.of_float (dcaZ t)))))))
  /\ (forall t : Track,
        dcaXY t = F32.decimal 1 1 -> dcaZ t = F32.decimal 2 1 ->
        dcaXY t = S754_finite false 13421773 (-27)
        /\ cutColumn t kDCAMin = S754_finite false 15005998 (-26)
        /\ dcaXY t <> cutColumn t kDCAMin)
  /\ (run isSelectedMinimal engineDCAMin trackDCA = false
      /\ Z.testbit (fst (run (getCutContainer 1) engineDCAMin trackDCA)) 0 = true).
Proof.
  split; [|split; [|split; [|split]]].
  - intros e t Hn Hlt. apply Z.ltb_lt in Hn.
    apply (rejects_false e t kDCAMin).
    cbn [rejects minimalCount violates columnValue minimalObservable threshold].
    now rewrite Hn, Hlt.
  - intros e t Hother Hnp Hge. apply no_reject_true; [|exact Hnp].
    intros k. destruct (TrackSel_eq_dec k kDCAMin) as [-> | Hne]; [|now apply Hother].
    cbn [rejects minimalCount violates columnValue minimalObservable threshold].
    rewrite Hge. apply andb_false_r.
  - intros sz e t pre post sel Hsels Hvar Hw.
    rewrite (getCutContainer_bit sz e t pre post sel Hsels); [| |exact Hw].
    + unfold cutObservable. rewrite Hvar. reflexivity.
    + unfold isPIDSelection. now rewrite Hvar.
  - intros t Hxy Hz. cbn [cutColumn]. rewrite Hxy, Hz.
    split; [reflexivity|]. split; [reflexivity|].
    intros H. vm_compute in H. discriminate H.
  - split; reflexivity.
Qed.

Lemma dca_minimal_and_cut_container_differ_witness :
  run isSelectedMinimal engineDCAMin trackDCA = false
  /\ run isSelectedMinimal engineDCAMin
       (withDCA (F32.decimal 2 1) (F32.decimal 1 1) track0) = true
  /\ Z.testbit (fst (run (getCutContainer 1) engineDCAMin trackDCA)) 0
     = isSelected selDCAMin (cutColumn trackDCA kDCAMin)
  /\ dcaXY trackDCA <> cutColumn trackDCA kDCAMin.
Proof.
  destruct dca_minimal_and_cut_container_differ
    as (Hrej & Hpass & Hcut & Hval & _).
  split; [|split; [|split]].
  - apply Hrej; reflexivity.
  - apply Hpass.
    + intros k _. destruct k; reflexivity.
    + reflexivity.
    + reflexivity.
  - apply (Hcut 1 engineDCAMin trackDCA [] [] selDCAMin); reflexivity.
  - apply (Hval trackDCA); reflexivity.
Defined.

(* ===================================================================== *)
(** * Part IV: further properties of the engine                           *)
(* ===================================================================== *)

(** ** isSelectedMinimal: what it reads *)

Lemma forallb_pointwise (A : Type) (f g : A -> bool) (l : list A) :
  (forall x, f x = g x) -> forallb f l = forallb g l.
Proof.
  intros H. induction l as [|x l IH]; cbn; [reflexivity | now rewrite H, IH].
Qed.

(** X1.  [isSelectedMinimal] reads neither the sign of the track nor its
    TOF n-sigma values: two tracks that agree on every other column get
    the same answer from every engine. *)
Theorem isSelectedMinimal_ignores_sign_and_tof
    (e : FemtoUniverseTrackSelection) (t1 t2 : Track) :
  (forall o, o <> OSign -> o <> OTofNSigma -> agree o t1 t2) ->
  run isSelectedMinimal e t1 = run isSelectedMinimal e t2.
Proof.
  intros H. rewrite !isSelectedMinimal_value. f_equal.
  - apply forallb_pointwise. intros k. f_equal.
    destruct k; try (apply rejects_agree, H; discriminate).
    reflexivity.
  - unfold notPropagated.
    assert (Hxy : agree ODcaXY t1 t2) by (apply H; discriminate).
    cbn [agree] in Hxy. now rewrite Hxy.
Qed.

Lemma isSelectedMinimal_ignores_sign_and_tof_witness :
  run isSelectedMinimal engineThree
    (mkTrack (F32.of_Z 1) zero zero zero zero zero zero zero zero zero zero zero
       (fun _ => zero) (fun _ => F32.of_Z 7))
  = run isSelectedMinimal engineThree track0.
Proof.
  apply isSelectedMinimal_ignores_sign_and_tof.
  intros o Hs Ht. destruct o; cbn; try reflexivity; congruence.
Defined.

Lemma SFltb_nan_l (x : spec_float) : SFltb S754_nan x = false.
Proof. reflexivity. Qed.

Lemma SFltb_nan_r (x : spec_float) : SFltb x S754_nan = false.
Proof. destruct x as [[]|[]| |[] m ex]; reflexivity. Qed.

(** No check of a non-PID kind rejects a NaN. *)
Lemma violates_nan (k : TrackSel) (T : float) : violates k S754_nan T = false.
Proof.
  destruct k; cbn [violates fabs SFabs]; unfold flt, fgt;
    first [reflexivity | apply SFltb_nan_l | apply SFltb_nan_r].
Qed.

(** X2.  A NaN in a column is never rejected: all comparisons of the checks
    are written so that they are false on NaN.  If a checked scalar column
    of the track is NaN and no check on another column rejects, the track
    passes, whatever the thresholds of the checks on that column. *)
Theorem isSelectedMinimal_passes_nan
    (e : FemtoUniverseTrackSelection) (t : Track) (o : Observable) :
  checkedColumn o = true ->
  columnValue t o = S754_nan ->
  (forall k, minimalObservable k <> o -> rejects e t k = false) ->
  (o <> ODcaXY -> notPropagated e t = false) ->
  run isSelectedMinimal e t = true.
Proof.
  intros Hc Hnan Hother Hnp. apply no_reject_true.
  - intros k.
    destruct (Observable_eq_dec (minimalObservable k) o) as [Heq | Hne];
      [|now apply Hother].
    destruct k; cbn [rejects];
      try (rewrite Heq, Hnan, violates_nan; apply andb_false_r).
    cbn in Heq. subst o. discriminate Hc.
  - destruct (Observable_eq_dec o ODcaXY) as [-> | Hne]; [|now apply Hnp].
    unfold notPropagated. cbn [columnValue] in Hnan. rewrite Hnan.
    apply andb_false_r.
Qed.

Lemma isSelectedMinimal_passes_nan_witness :
  run isSelectedMinimal enginePtMin (withPt S754_nan track0) = true.
Proof.
  apply (isSelectedMinimal_passes_nan enginePtMin (withPt S754_nan track0) OPt).
  - reflexivity.
  - reflexivity.
  - intros k _. destruct k; reflexivity.
  - intros _. reflexivity.
Defined.

(** X3.  With the PID criterion active, a track none of whose configured
    species has a number as TPC n-sigma is rejected; in particular every
    track is rejected when no species was registered. *)
Theorem isSelectedMinimal_pid_needs_a_species
    (e : FemtoUniverseTrackSelection) (t : Track) :
  0 < nPIDnSigmaSel e ->
  (forall pid, In pid (kPIDspecies e) -> tpcNSigma t pid = S754_nan) ->
  run isSelectedMinimal e t = false.
Proof.
  intros Hn Hnan. apply Z.ltb_lt in Hn.
  apply (rejects_false e t kPIDnSigmaMax). cbn [rejects]. rewrite Hn.
  cbn [andb]. apply negb_true_iff.
  destruct (pidFulfilled e t) eqn:Hp; [|reflexivity].
  apply pidFulfilled_exists in Hp. destruct Hp as (pid & Hin & Hlt).
  rewrite (Hnan pid Hin) in Hlt. discriminate Hlt.
Qed.

Lemma isSelectedMinimal_pid_needs_a_species_witness :
  run isSelectedMinimal enginePIDNoSpecies trackAB = false
  /\ run isSelectedMinimal enginePID trackNaN = false.
Proof.
  split.
  - apply isSelectedMinimal_pid_needs_a_species; [reflexivity|].
    intros pid [].
  - apply isSelectedMinimal_pid_needs_a_species; [reflexivity|].
    intros pid _. reflexivity.
Defined.

(** X4.  [isSelectedMinimal] sees [eta], [dcaXY] and [dcaZ] through their
    absolute value only: negating the three does not change the answer. *)
Theorem isSelectedMinimal_mirror_symmetric
    (e : FemtoUniverseTrackSelection) (t : Track) :
  run isSelectedMinimal e (mirrored t) = run isSelectedMinimal e t.
Proof.
  rewrite !isSelectedMinimal_value.
  unfold notPropagated, pidFulfilled, mirrored.
  cbn [forallb allKinds rejects minimalCount threshold minimalObservable
       columnValue violates pt eta tpcNClsFound tpcCrossedRowsOverFindableCls
       tpcNClsCrossedRows tpcNClsShared tpcFractionSharedCls itsNCls
       itsNClsInnerBarrel dcaXY dcaZ tpcNSigma].
  now rewrite !fabs_opp.
Qed.

(** X5.  An engine none of whose kinds has a positive count rejects
    exactly the tracks not propagated to the vertex, and nothing when that
    rejection is off. *)
Theorem isSelectedMinimal_without_active_kind
    (e : FemtoUniverseTrackSelection) (t : Track) :
  (forall k, minimalCount e k <= 0) ->
  run isSelectedMinimal e t = negb (notPropagated e t)
  /\ (nRejectNotPropagatedTracks e = false -> run isSelectedMinimal e t = true).
Proof.
  intros Hcount.
  assert (Hrej : forall k, rejects e t k = false).
  { intros k. pose proof (Hcount k) as Hk. apply Z.ltb_ge in Hk.
    destruct k; cbn [rejects minimalCount] in *; try reflexivity;
      now rewrite Hk. }
  assert (Hval : run isSelectedMinimal e t = negb (notPropagated e t)).
  { rewrite isSelectedMinimal_value. cbn [forallb allKinds]. now rewrite !Hrej. }
  split; [exact Hval|].
  intros Hflag. rewrite Hval. unfold notPropagated. now rewrite Hflag.
Qed.

Lemma isSelectedMinimal_without_active_kind_witness :
  run isSelectedMinimal engineReject trackDCA = negb (notPropagated engineReject trackDCA)
  /\ run isSelectedMinimal (configured [] [] engine0) trackNaN = true.
Proof.
  split.
  - refine (proj1 (isSelectedMinimal_without_active_kind engineReject trackDCA _)).
    intros k. destruct k; vm_compute; discriminate.
  - refine (proj2 (isSelectedMinimal_without_active_kind
                     (configured [] [] engine0) trackNaN _) _).
    + intros k. destruct k; vm_compute; discriminate.
    + reflexivity.
Defined.

(** ** isSelectedMinimal and the setters *)



Lemma rejects_withSelections (sels : list Selection)
    (e : FemtoUniverseTrackSelection) (t : Track) (k : TrackSel) :
  rejects (withSelections sels e) t k = rejects e t k.
Proof. destruct k; reflexivity. Qed.

Lemma rejects_setTOFOffset (offsetTOF : float)
    (e : FemtoUniverseTrackSelection) (t : Track) (k : TrackSel) :
  rejects (setnSigmaPIDOffset (nSigmaPIDOffsetTPC e) offsetTOF e) t k
  = rejects e t k.
Proof. destruct k; reflexivity. Qed.

(** X7.  [isSelectedMinimal] works from the members [init] has set, not
    from the criteria: replacing the registered criteria after [init] does
    not change its answer until [init] runs again.  Nor does the TOF
    n-sigma offset. *)
Theorem isSelectedMinimal_uses_collapsed_members
    (e : FemtoUniverseTrackSelection) (t : Track)
    (sels : list Selection) (offsetTOF : float) :
  run isSelectedMinimal (withSelections sels e) t = run isSelectedMinimal e t
  /\ run isSelectedMinimal
       (setnSigmaPIDOffset (nSigmaPIDOffsetTPC e) offsetTOF e) t
     = run isSelectedMinimal e t.
Proof.
  rewrite !isSelectedMinimal_value. split; f_equal;
    try (apply forallb_pointwise; intros k;
         now rewrite ?rejects_withSelections, ?rejects_setTOFOffset);
    reflexivity.
Qed.

Lemma fold_push_back (A : Type) (l acc : list A) :
  fold_left (fun acc x => acc ++ [x]) l acc = acc ++ l.
Proof.
  revert acc. induction l as [|x l IH]; intros acc; cbn.
  - now rewrite app_nil_r.
  - rewrite IH. now rewrite <- app_assoc.
Qed.

(** X8.  [setPIDSpecies] appends to the species already registered: it
    neither clears nor removes duplicates, and two calls accumulate. *)
Theorem setPIDSpecies_accumulates
    (e : FemtoUniverseTrackSelection) (pids1 pids2 : list PID) :
  kPIDspecies (setPIDSpecies pids1 e) = kPIDspecies e ++ pids1
  /\ kPIDspecies (setPIDSpecies pids2 (setPIDSpecies pids1 e))
     = kPIDspecies e ++ pids1 ++ pids2
  /\ mSelections (setPIDSpecies pids1 e) = mSelections e.
Proof.
  cbn [kPIDspecies setPIDSpecies mSelections].
  rewrite !fold_push_back. rewrite app_assoc. repeat split; reflexivity.
Qed.

(** ** getCutContainer: what it reads and what it returns *)

Lemma getCutContainer_pair (sizeofCutContainerType : Z)
    (e : FemtoUniverseTrackSelection) (t : Track) :
  run (getCutContainer sizeofCutContainerType) e t
  = (output (cutLoop (8 * sizeofCutContainerType) e t (mSelections e)
               (mkLocals (S754_zero false) 0 0 0)),
     outputPID (cutLoop (8 * sizeofCutContainerType) e t (mSelections e)
                  (mkLocals (S754_zero false) 0 0 0))).
Proof.
  unfold run. now rewrite getCutContainer_run.
Qed.

Lemma cutLoop_same_inputs (width : Z) (e1 e2 : FemtoUniverseTrackSelection)
    (t : Track) (sels : list Selection) (loc : Locals) :
  kPIDspecies e1 = kPIDspecies e2 ->
  nSigmaPIDOffsetTPC e1 = nSigmaPIDOffsetTPC e2 ->
  nSigmaPIDOffsetTOF e1 = nSigmaPIDOffsetTOF e2 ->
  cutLoop width e1 t sels loc = cutLoop width e2 t sels loc.
Proof.
  intros Hs Hc Hf. unfold cutLoop, cutStep. now rewrite Hs, Hc, Hf.
Qed.

(** X9.  [getCutContainer] reads the registered criteria, the species and
    the two offsets, and nothing else of the engine: the counts and
    collapsed thresholds of [init], the rejection flag and the registry do
    not matter, so it answers the same before and after [init]. *)
Theorem getCutContainer_reads_criteria_only
    (sizeofCutContainerType : Z) (e1 e2 : FemtoUniverseTrackSelection)
    (t : Track) :
  sameCutInputs e1 e2 ->
  run (getCutContainer sizeofCutContainerType) e1 t
  = run (getCutContainer sizeofCutContainerType) e2 t.
Proof.
  intros (Hsels & Hs & Hc & Hf). rewrite !getCutContainer_pair, Hsels.
  now rewrite (cutLoop_same_inputs _ e1 e2 t _ _ Hs Hc Hf).
Qed.

Lemma getCutContainer_reads_criteria_only_witness :
  run (getCutContainer 1)
    (withSelections threeSelections (setPIDSpecies [pion; kaon] engine0)) trackAB
  = run (getCutContainer 1)
      (setRejectNotPropagatedTracks true engineThree) trackAB.
Proof.
  apply getCutContainer_reads_criteria_only.
  repeat split; reflexivity.
Defined.

Section CutLoopParts.

Variable width : Z.
Variable e : FemtoUniverseTrackSelection.
Variable t : Track.

(** The ordinary part of the locals is driven by the non-PID criteria. *)
Lemma cutLoop_ordinary_part (sels : list Selection) (loc loc' : Locals) :
  observable loc = observable loc' ->
  output loc = output loc' ->
  counter loc = counter loc' ->
  let r := cutLoop width e t sels loc in
  let r' := cutLoop width e t (nonPID sels) loc' in
  observable r = observable r' /\ output r = output r' /\ counter r = counter r'.
Proof.
  revert loc loc'. induction sels as [|sel sels IH]; intros loc loc' Ho Hout Hc.
  - cbn. auto.
  - unfold nonPID. cbn [filter].
    change (cutLoop width e t (sel :: sels) loc)
      with (cutLoop width e t sels (cutStep width e t sel loc)).
    destruct (isPIDSelection sel) eqn:Hpid; cbn [negb].
    + apply IH; unfold cutStep; rewrite Hpid; cbn; assumption.
    + change (cutLoop width e t (sel :: filter (fun s => negb (isPIDSelection s)) sels) loc')
        with (cutLoop width e t (nonPID sels) (cutStep width e t sel loc')).
      apply IH; unfold cutStep; rewrite Hpid; cbn; rewrite ?Ho, ?Hout, ?Hc; reflexivity.
Qed.

(** The PID part of the locals is driven by the PID criteria. *)
Lemma cutLoop_pid_part (sels : list Selection) (loc loc' : Locals) :
  outputPID loc = outputPID loc' ->
  outputPID (cutLoop width e t sels loc)
  = outputPID (cutLoop width e t (onlyPID sels) loc').
Proof.
  revert loc loc'. induction sels as [|sel sels IH]; intros loc loc' Hp.
  - exact Hp.
  - unfold onlyPID. cbn [filter].
    change (cutLoop width e t (sel :: sels) loc)
      with (cutLoop width e t sels (cutStep width e t sel loc)).
    destruct (isPIDSelection sel) eqn:Hpid.
    + change (cutLoop width e t (sel :: filter isPIDSelection sels) loc')
        with (cutLoop width e t (onlyPID sels) (cutStep width e t sel loc')).
      apply IH. unfold cutStep. rewrite Hpid. cbn. now rewrite Hp.
    + apply IH. unfold cutStep. rewrite Hpid. cbn. exact Hp.
Qed.

(** Without species no PID criterion writes a bit. *)
Lemma cutLoop_no_species (sels : list Selection) (loc : Locals) :
  kPIDspecies e = [] ->
  outputPID (cutLoop width e t sels loc) = outputPID loc.
Proof.
  intros Hs. revert loc. induction sels as [|sel sels IH]; intros loc.
  - reflexivity.
  - change (cutLoop width e t (sel :: sels) loc)
      with (cutLoop width e t sels (cutStep width e t sel loc)).
    rewrite IH. unfold cutStep. rewrite Hs.
    destruct (isPIDSelection sel); reflexivity.
Qed.

End CutLoopParts.

(** X10.  The two containers are independent: the ordinary container is
    what the non-PID criteria alone give (PID criteria take no bit index
    and disturb no observable), and the PID container is what the PID
    criteria alone give. *)
Theorem getCutContainer_parts_independent
    (sizeofCutContainerType : Z) (e : FemtoUniverseTrackSelection) (t : Track) :
  fst (run (getCutContainer sizeofCutContainerType) e t)
  = fst (run (getCutContainer sizeofCutContainerType)
           (withSelections (nonPID (mSelections e)) e) t)
  /\ snd (run (getCutContainer sizeofCutContainerType) e t)
     = snd (run (getCutContainer sizeofCutContainerType)
              (withSelections (onlyPID (mSelections e)) e) t).
Proof.
  rewrite !getCutContainer_pair. cbn [fst snd mSelections withSelections].
  split.
  - rewrite (cutLoop_same_inputs _ (withSelections (nonPID (mSelections e)) e) e)
      by reflexivity.
    apply (cutLoop_ordinary_part (8 * sizeofCutContainerType) e t
             (mSelections e) (mkLocals (S754_zero false) 0 0 0)
             (mkLocals (S754_zero false) 0 0 0) eq_refl eq_refl eq_refl).
  - rewrite (cutLoop_same_inputs _ (withSelections (onlyPID (mSelections e)) e) e)
      by reflexivity.
    now apply cutLoop_pid_part.
Qed.

(** X11.  When no species has been registered the PID container is 0,
    however many PID criteria there are. *)
Theorem getCutContainer_without_species
    (sizeofCutContainerType : Z) (e : FemtoUniverseTrackSelection) (t : Track) :
  kPIDspecies e = [] ->
  snd (run (getCutContainer sizeofCutContainerType) e t) = 0.
Proof.
  intros Hs. rewrite getCutContainer_pair. cbn [snd].
  now rewrite cutLoop_no_species.
Qed.

Lemma getCutContainer_without_species_witness :
  snd (run (getCutContainer 1) enginePIDNoSpecies trackAB) = 0.
Proof.
  apply getCutContainer_without_species. reflexivity.
Defined.

Lemma setBit_range (width container index : Z) :
  0 <= width -> 0 <= setBit width container index < 2 ^ width.
Proof.
  intros Hw. unfold setBit. apply Z.mod_pos_bound. now apply Z.pow_pos_nonneg.
Qed.

Lemma checkSelectionSetBitPID_range (width : Z) (sel : Selection)
    (x : float) (container : Z) :
  0 <= width -> 0 <= checkSelectionSetBitPID width sel x container < 2 ^ width.
Proof.
  intros Hw. unfold checkSelectionSetBitPID. apply Z.mod_pos_bound.
  now apply Z.pow_pos_nonneg.
Qed.

Lemma pidBits_range (width : Z) (sel : Selection) (pidTPC pidTOF : list float)
    (offsetTPC offsetTOF : float) (nSpecies : nat) (out : Z) :
  0 <= width -> 0 <= out < 2 ^ width ->
  0 <= pidBits width sel pidTPC pidTOF offsetTPC offsetTOF nSpecies out < 2 ^ width.
Proof.
  intros Hw. unfold pidBits. generalize (seq 0 nSpecies) as l. intros l.
  revert out. induction l as [|i l IH]; intros out Hout; cbn [fold_left].
  - exact Hout.
  - apply IH. now apply checkSelectionSetBitPID_range.
Qed.

Lemma cutLoop_range (width : Z) (e : FemtoUniverseTrackSelection) (t : Track)
    (sels : list Selection) (loc : Locals) :
  0 <= width ->
  0 <= output loc < 2 ^ width -> 0 <= outputPID loc < 2 ^ width ->
  0 <= output (cutLoop width e t sels loc) < 2 ^ width
  /\ 0 <= outputPID (cutLoop width e t sels loc) < 2 ^ width.
Proof.
  intros Hw. revert loc. induction sels as [|sel sels IH]; intros loc Ho Hp.
  - now split.
  - change (cutLoop width e t (sel :: sels) loc)
      with (cutLoop width e t sels (cutStep width e t sel loc)).
    apply IH; unfold cutStep, checkSelectionSetBit;
      destruct (isPIDSelection sel); cbn [output outputPID fst];
      try assumption;
      first [ now apply pidBits_range
            | destruct (isSelected _ _); [now apply setBit_range | assumption] ].
Qed.

(** X12.  Both containers fit the container type: they lie in
    [0, 2 ^ (8 * sizeof(CutContainerType)))], and the ordinary container
    has no bit set at or above the number of non-PID criteria. *)
Theorem getCutContainer_in_range
    (sizeofCutContainerType : Z) (e : FemtoUniverseTrackSelection) (t : Track) :
  0 <= sizeofCutContainerType ->
  0 <= fst (run (getCutContainer sizeofCutContainerType) e t)
       < 2 ^ (8 * sizeofCutContainerType)
  /\ 0 <= snd (run (getCutContainer sizeofCutContainerType) e t)
          < 2 ^ (8 * sizeofCutContainerType)
  /\ forall j, Z.of_nat (List.length (nonPID (mSelections e))) <= j ->
       Z.testbit (fst (run (getCutContainer sizeofCutContainerType) e t)) j = false.
Proof.
  intros Hsz. rewrite getCutContainer_pair. cbn [fst snd].
  assert (Hw : 0 <= 8 * sizeofCutContainerType) by lia.
  assert (Hpow : 0 < 2 ^ (8 * sizeofCutContainerType)) by now apply Z.pow_pos_nonneg.
  assert (Hzero : 0 <= 0 < 2 ^ (8 * sizeofCutContainerType)) by lia.
  destruct (cutLoop_range (8 * sizeofCutContainerType) e t (mSelections e)
              (mkLocals (S754_zero false) 0 0 0) Hw Hzero Hzero) as (Ho & Hp).
  split; [exact Ho|]. split; [exact Hp|].
  intros j Hj.
  apply (cutLoop_high_bits (8 * sizeofCutContainerType) e t Hw (mSelections e)
           (mkLocals (S754_zero false) 0 0 0)).
  - cbn. lia.
  - intros i _. apply Z.bits_0.
  - rewrite cutLoop_counter. cbn [counter]. lia.
Qed.

Lemma getCutContainer_in_range_witness :
  0 <= fst (run (getCutContainer 1) engineThree trackAB) < 2 ^ (8 * 1)
  /\ Z.testbit (fst (run (getCutContainer 1) engineThree trackAB)) 2 = false.
Proof.
  assert (Hsz : 0 <= 1) by (vm_compute; discriminate).
  destruct (getCutContainer_in_range 1 engineThree trackAB Hsz) as (Ho & _ & Hhigh).
  split; [exact Ho|]. apply Hhigh. vm_compute. discriminate.
Defined.

(** ** init: what it sets *)

(** X13.  [init] overwrites every count and collapsed threshold from the
    registered criteria: its result does not depend on the values these
    members held before, in particular not on the three members the
    constructor leaves uninitialised. *)
Theorem init_overwrites_collapsed_members
    (sizeofCutContainerType : Z) (particleTypeName trackTypeName : string)
    (registry : option HistogramRegistry) (e1 e2 : FemtoUniverseTrackSelection) :
  sameInitInputs e1 e2 ->
  init sizeofCutContainerType particleTypeName trackTypeName registry e1
  = init sizeofCutContainerType particleTypeName trackTypeName registry e2.
Proof.
  intros (Hreg & Hsels & Hflag & Hc & Hf & Hs).
  unfold init, initRegistry. now rewrite Hreg, Hsels, Hflag, Hc, Hf, Hs.
Qed.

Lemma init_overwrites_collapsed_members_witness :
  init 1 "Tracks" "Track" None
    (withSelections threeSelections
       (newFemtoUniverseTrackSelection 7 (F32.of_Z 5) S754_nan))
  = init 1 "Tracks" "Track" None (withSelections threeSelections engine0).
Proof.
  apply init_overwrites_collapsed_members. repeat split; reflexivity.
Defined.

(** X14.  [init] is idempotent apart from the registry: once it has
    succeeded, running it again without a registry, for any container
    size, succeeds and gives the same engine. *)
Theorem init_again_without_registry
    (sizeofCutContainerType sizeofOther : Z)
    (particleTypeName trackTypeName otherParticle otherTrack : string)
    (registry : option HistogramRegistry) (e e' : FemtoUniverseTrackSelection) :
  init sizeofCutContainerType particleTypeName trackTypeName registry e = Done e' ->
  init sizeofOther otherParticle otherTrack None e' = Done e'.
Proof.
  unfold init. destruct (initRegistry _ _ _ _ _) as [reg | msg]; [|discriminate].
  intros H. injection H as <-. reflexivity.
Qed.

Lemma init_again_without_registry_witness :
  init 4 "V0" "PosChild" None engineThree = Done engineThree.
Proof.
  apply (init_again_without_registry 1 4 "Tracks" "Track" "V0" "PosChild" None
           (withSelections threeSelections (setPIDSpecies [pion; kaon] engine0))).
  reflexivity.
Defined.

(** X15.  After [init] every count is the number of registered criteria of
    its own kind (as an [int]), and every threshold is collapsed from the
    criteria of its own kind with the comparison kind of the table
    [kSelectionTypes], except for [kDCAMin], which [init] collapses as an
    absolute lower limit although the table holds [kAbsUpperLimit].
    [getSigmaPIDMax] returns the collapsed PID maximum. *)
Theorem init_counts_and_thresholds
    (sizeofCutContainerType : Z) (particleTypeName trackTypeName : string)
    (registry : option HistogramRegistry) (e e' : FemtoUniverseTrackSelection) :
  init sizeofCutContainerType particleTypeName trackTypeName registry e = Done e' ->
  (forall k, k <> kSign ->
     minimalCount e' k = to_int (getNSelectionsOf (mSelections e) k))
  /\ (forall k, k <> kSign -> k <> kDCAMin ->
        threshold e' k = getMinimalSelection (mSelections e) k (getSelectionType k))
  /\ threshold e' kDCAMin = getMinimalSelection (mSelections e) kDCAMin kAbsLowerLimit
  /\ getSelectionType kDCAMin <> kAbsLowerLimit
  /\ getSigmaPIDMax e'
     = getMinimalSelection (mSelections e) kPIDnSigmaMax kAbsUpperLimit.
Proof.
  unfold init. destruct (initRegistry _ _ _ _ _) as [reg | msg]; [|discriminate].
  intros H. injection H as <-.
  split; [|split; [|split; [|split]]].
  - intros k Hk. destruct k; try reflexivity. congruence.
  - intros k Hk Hd. destruct k; try reflexivity; congruence.
  - reflexivity.
  - discriminate.
  - reflexivity.
Qed.

Lemma init_counts_and_thresholds_witness :
  minimalCount engineThree kEtaMax = 1
  /\ threshold engineThree kEtaMax = F32.decimal 8 1
  /\ minimalCount engineThree kDCAMin = 0.
Proof.
  destruct (init_counts_and_thresholds 1 "Tracks" "Track" None
              (withSelections threeSelections (setPIDSpecies [pion; kaon] engine0))
              engineThree eq_refl) as (Hcount & Hthr & _).
  split; [|split].
  - rewrite (Hcount kEtaMax) by discriminate. reflexivity.
  - rewrite (Hthr kEtaMax) by discriminate. reflexivity.
  - rewrite (Hcount kDCAMin) by discriminate. reflexivity.
Defined.

Lemma filter_length_split (A : Type) (f : A -> bool) (l : list A) :
  (List.length (filter f l) + List.length (filter (fun x => negb (f x)) l)
   = List.length l)%nat.
Proof.
  induction l as [|x l IH]; cbn; [reflexivity|].
  destruct (f x); cbn; lia.
Qed.

(** The number [init] checks is the number of bits [getCutContainer] uses. *)
Lemma nOrdinarySelections_nonPID (e : FemtoUniverseTrackSelection) :
  nOrdinarySelections e = Z.of_nat (List.length (nonPID (mSelections e))).
Proof.
  unfold nOrdinarySelections, getNSelections, getNSelectionsOf, nonPID.
  pose proof (filter_length_split _ isPIDSelection (mSelections e)) as H.
  unfold isPIDSelection in *. lia.
Qed.

(** X16.  The width check of [init] is what [getCutContainer] needs: after
    an [init] with a registry has succeeded (fewer than [2 ^ 32]
    criteria), the non-PID criteria are no more than the bits of the
    container, and the bit of each of them is the outcome of its test. *)
Theorem init_makes_bits_fit
    (sizeofCutContainerType : Z) (particleTypeName trackTypeName : string)
    (r : HistogramRegistry) (e e' : FemtoUniverseTrackSelection) (t : Track)
    (pre post : list Selection) (sel : Selection) :
  nOrdinarySelections e < 2 ^ 32 ->
  init sizeofCutContainerType particleTypeName trackTypeName (Some r) e = Done e' ->
  mSelections e' = pre ++ sel :: post ->
  isPIDSelection sel = false ->
  Z.of_nat (List.length (nonPID (mSelections e'))) <= 8 * sizeofCutContainerType
  /\ Z.testbit (fst (run (getCutContainer sizeofCutContainerType) e' t))
       (Z.of_nat (List.length (nonPID pre)))
     = isSelected sel
         (cutObservable t (getSelectionVariable sel) (observableAfter t pre)).
Proof.
  intros Hsmall Hinit Hsels Hsel.
  assert (Hfit : Z.of_nat (List.length (nonPID (mSelections e')))
                 <= 8 * sizeofCutContainerType).
  { revert Hinit. unfold init, initRegistry.
    fold (nOrdinarySelections e). unfold to_unsigned.
    pose proof (nOrdinarySelections_nonneg e) as Hpos.
    rewrite Z.mod_small by lia.
    destruct (8 * sizeofCutContainerType <? nOrdinarySelections e) eqn:Hcmp;
      [discriminate|].
    intros H. injection H as <-. cbn [mSelections].
    apply Z.ltb_ge in Hcmp. now rewrite <- nOrdinarySelections_nonPID. }
  split; [exact Hfit|].
  apply (getCutContainer_bit _ _ _ pre post sel Hsels Hsel).
  rewrite Hsels in Hfit. unfold nonPID in *. rewrite filter_app in Hfit.
  cbn [filter] in Hfit. rewrite Hsel in Hfit. cbn [negb] in Hfit.
  rewrite length_app in Hfit. cbn [List.length] in Hfit. lia.
Qed.

Lemma init_makes_bits_fit_witness :
  Z.testbit (fst (run (getCutContainer 1) engineThreeQA trackAB)) 1
  = isSelected (mkSelection (F32.decimal 8 1) 3 kAbsUpperLimit) (eta trackAB).
Proof.
  refine (proj2 (init_makes_bits_fit 1 "Tracks" "Track" []
                   (withSelections threeSelections (setPIDSpecies [pion; kaon] engine0))
                   engineThreeQA trackAB
                   [mkSelection (F32.decimal 5 1) 1 kLowerLimit]
                   [mkSelection (F32.of_Z 3) 14 kAbsUpperLimit]
                   (mkSelection (F32.decimal 8 1) 3 kAbsUpperLimit) _ _ _ _));
    reflexivity.
Defined.

(** ** The QA histograms *)

Lemma string_append_assoc (a b c : string) :
  ((a ++ b) ++ c)%string = (a ++ (b ++ c))%string.
Proof.
  induction a as [|x a IH]; cbn; [reflexivity | now rewrite IH].
Qed.

Lemma string_append_inj (p a b : string) :
  (p ++ a)%string = (p ++ b)%string -> a = b.
Proof.
  induction p as [|x p IH]; cbn; intros H; [exact H|].
  injection H as H. now apply IH.
Qed.

Lemma histName_folder (pn tn name : string) :
  ((pn ++ "/" ++ tn) ++ name)%string = histName pn tn name.
Proof.
  unfold histName. now rewrite <- (string_append_assoc pn "/" tn).
Qed.

Lemma histName_inj (pn tn a b : string) :
  histName pn tn a = histName pn tn b -> a = b.
Proof.
  unfold histName. rewrite !string_append_assoc. intros H.
  apply string_append_inj in H. apply string_append_inj in H.
  now apply string_append_inj in H.
Qed.

Lemma qaHistograms_NoDup : NoDup qaHistograms.
Proof.
  unfold qaHistograms.
  repeat (constructor; [cbn; intuition discriminate|]).
  constructor.
Qed.

Lemma NoDup_map_inj (A B : Type) (f : A -> B) (l : list A) :
  (forall x y, f x = f y -> x = y) -> NoDup l -> NoDup (map f l).
Proof.
  intros Hinj Hnd. induction Hnd as [|x l Hx Hnd IH]; cbn; constructor.
  - intros Hin. apply in_map_iff in Hin. destruct Hin as (y & Hy & Hin).
    apply Hinj in Hy. now subst y.
  - exact IH.
Qed.

(** X17.  With a registry, a successful [init] adds its 31 QA histograms
    below [ParticleTypeName[part]/TrackTypeName[tracktype]], after the
    histograms already there; their names are pairwise distinct.  Without a
    registry the engine keeps the registry it had. *)
Theorem init_adds_qa_histograms
    (sizeofCutContainerType : Z) (particleTypeName trackTypeName : string)
    (e e' : FemtoUniverseTrackSelection) :
  (forall r,
     init sizeofCutContainerType particleTypeName trackTypeName (Some r) e = Done e' ->
     mHistogramRegistry e'
     = Some (r ++ map (histName particleTypeName trackTypeName) qaHistograms))
  /\ (init sizeofCutContainerType particleTypeName trackTypeName None e = Done e' ->
      mHistogramRegistry e' = mHistogramRegistry e)
  /\ NoDup (map (histName particleTypeName trackTypeName) qaHistograms)
  /\ List.length (map (histName particleTypeName trackTypeName) qaHistograms) = 31%nat.
Proof.
  split; [|split; [|split]].
  - intros r. unfold init, initRegistry.
    destruct (_ <? _); [discriminate|].
    intros H.
    apply (f_equal (fun o => match o with
                             | Done x => mHistogramRegistry x
                             | Fatal _ => None
                             end)) in H.
    cbn [mHistogramRegistry] in H. rewrite <- H.
    do 2 f_equal. apply map_ext. intros h. apply histName_folder.
  - unfold init, initRegistry. intros H. injection H as <-. reflexivity.
  - apply NoDup_map_inj; [apply histName_inj | apply qaHistograms_NoDup].
  - reflexivity.
Qed.

Lemma init_adds_qa_histograms_witness :
  mHistogramRegistry engineThreeQA
  = Some ([] ++ map (histName "Tracks" "Track") qaHistograms).
Proof.
  refine (proj1 (init_adds_qa_histograms 1 "Tracks" "Track"
                   (withSelections threeSelections (setPIDSpecies [pion; kaon] engine0))
                   engineThreeQA) [] _).
  reflexivity.
Defined.

(** X18.  [fillQA] fills exactly the histograms [init] has added, in the
    same order and under the same names, so that after a successful [init]
    with a registry every fill finds its histogram; each fill passes as
    many values as the histogram has axes.  Without a registry [fillQA]
    fills nothing. *)
Theorem fillQA_fills_what_init_added
    (sizeofCutContainerType : Z) (particleTypeName trackTypeName : string)
    (e e' : FemtoUniverseTrackSelection) (q : TrackQA) :
  (forall r registry',
     init sizeofCutContainerType particleTypeName trackTypeName (Some r) e = Done e' ->
     mHistogramRegistry e' = Some registry' ->
     map fst (fillQA particleTypeName trackTypeName e' q)
     = map (histName particleTypeName trackTypeName) qaHistograms
     /\ (forall f, In f (fillQA particleTypeName trackTypeName e' q) ->
                   In (fst f) registry')
     /\ map (fun f => List.length (snd f)) (fillQA particleTypeName trackTypeName e' q)
        = map snd qaHistogramAxes)
  /\ (mHistogramRegistry e = None ->
      fillQA particleTypeName trackTypeName e q = []).
Proof.
  split.
  - intros r registry' Hinit Hreg.
    pose proof (proj1 (init_adds_qa_histograms sizeofCutContainerType
                         particleTypeName trackTypeName e e') r Hinit) as Hadd.
    assert (Hr : registry'
                 = r ++ map (histName particleTypeName trackTypeName) qaHistograms)
      by congruence.
    subst registry'. clear Hreg.
    assert (Hnames : map fst (fillQA particleTypeName trackTypeName e' q)
                     = map (histName particleTypeName trackTypeName) qaHistograms).
    { unfold fillQA. rewrite Hadd. reflexivity. }
    split; [exact Hnames|]. split.
    + intros f Hf. apply in_or_app. right. rewrite <- Hnames.
      now apply in_map.
    + unfold fillQA. rewrite Hadd. reflexivity.
  - intros Hnone. unfold fillQA. now rewrite Hnone.
Qed.

Lemma fillQA_fills_what_init_added_witness :
  map fst (fillQA "Tracks" "Track" engineThreeQA trackQA0)
  = map (histName "Tracks" "Track") qaHistograms
  /\ fillQA "Tracks" "Track" engineThree trackQA0 = [].
Proof.
  split.
  - refine (proj1 (proj1 (fillQA_fills_what_init_added 1 "Tracks" "Track"
                            (withSelections threeSelections
                               (setPIDSpecies [pion; kaon] engine0))
                            engineThreeQA trackQA0) [] _ _ _)).
    + reflexivity.
    + reflexivity.
  - refine (proj2 (fillQA_fills_what_init_added 1 "Tracks" "Track"
                     engineThree engineThree trackQA0) _).
    reflexivity.
Defined.

(** ** Selection names: decoding *)

Lemma TrackSel_of_index (i : nat) :
  (i < 15)%nat -> exists iSel, TrackSel_to_nat iSel = i.
Proof.
  intros Hi.
  destruct (TrackSel_of_nat i) as [k|] eqn:Hk.
  - exists k. symmetry. now apply TrackSel_of_nat_Some.
  - exfalso. do 15 (destruct i as [|i]; [discriminate Hk|]). lia.
Qed.

(** X19.  [findSelectionIndex] answers [-1] or the index of a selection
    variable whose name, with the prefix in front, is exactly the string
    looked up: an answer other than [-1] decodes back to the input, and
    lies in [0, kNtrackSelection). *)
Theorem findSelectionIndex_decodes (obs prefix : string) :
  findSelectionIndex obs prefix = -1
  \/ exists iSel : TrackSel,
       findSelectionIndex obs prefix = Z.of_nat (TrackSel_to_nat iSel)
       /\ getSelectionName iSel prefix EmptyString = obs
       /\ 0 <= findSelectionIndex obs prefix < Z.of_nat kNtrackSelection.
Proof.
  unfold findSelectionIndex.
  destruct (findSelectionIndex_loop_sound obs prefix kNtrackSelection 0)
    as [Hr | (i & Hi & Ho & Hr)]; [now left|].
  right. unfold kNtrackSelection in *.
  destruct (TrackSel_of_index i) as [iSel <-]; [lia|].
  exists iSel. split; [exact Hr|]. split.
  - unfold getSelectionName. now rewrite string_append_empty_r.
  - rewrite Hr. lia.
Qed.

(** No catalogue name, followed by a non-empty string, is a catalogue name. *)
Lemma selection_names_prefix_free (iSel jSel : TrackSel) (suffix : string) :
  (selectionNameAt (TrackSel_to_nat iSel) ++ suffix)%string
  = selectionNameAt (TrackSel_to_nat jSel) ->
  suffix = EmptyString.
Proof.
  destruct iSel, jSel; cbn; intros H;
    first [discriminate H | repeat injection H as H; exact H].
Qed.

(** X20.  A name built with a non-empty suffix is not found: looking up
    [getSelectionName iSel prefix suffix] under the same prefix gives [-1]
    unless the suffix is empty. *)
Theorem findSelectionIndex_with_suffix
    (iSel : TrackSel) (prefix suffix : string) :
  suffix <> EmptyString ->
  findSelectionIndex (getSelectionName iSel prefix suffix) prefix = -1.
Proof.
  intros Hs.
  destruct (findSelectionIndex_decodes (getSelectionName iSel prefix suffix) prefix)
    as [Hr | (jSel & _ & Hname & _)]; [exact Hr|].
  exfalso. apply Hs. unfold getSelectionName in Hname.
  rewrite string_append_empty_r, string_append_assoc in Hname.
  apply string_append_inj in Hname. symmetry in Hname.
  now apply selection_names_prefix_free in Hname.
Qed.

Lemma findSelectionIndex_with_suffix_witness :
  findSelectionIndex (getSelectionName kpTMin "ConfTrk" "Extra") "ConfTrk" = -1.
Proof.
  apply findSelectionIndex_with_suffix. discriminate.
Defined.
